(** * cyh-steg-cli: file classification, tool filtering and the concurrent runner

    A shallow embedding of [pkg/detector], [pkg/runner] (runner and tool
    registry), [pkg/deps.IsToolAvailable] and the option handling of the
    [scan] command in [cmd/root.go], followed by the properties of the
    dispatch engine.

    Go strings are byte sequences: they are [string] (lists of 8-bit
    [ascii]).  [time.Duration] and [int] are [Z].  A Go [error] is kept as
    its message.  Maps used as sets ([map[string]bool]) are [gmap string
    bool] read with the zero value [false] for absent keys. *)

From Stdlib Require Import ZArith String Ascii List Lia Permutation.
From Stdlib.Strings Require Import Byte.
From stdpp Require Import base gmap strings list.

Open Scope string_scope.
Open Scope Z_scope.

(** ** Package os/exec and context: commands and what running one yields *)
Module Exec.

Record Cmd := {
  Path : string;
  Args : list string;
  Dir : string;
  Env : list string
}.

(** [exec.Command(name, arg...)]: [Args] always starts with [name].  The
    resolution of [name] against the search path is left out. *)
Definition Command (name : string) (arg : list string) : Cmd :=
  {| Path := name; Args := name :: arg; Dir := EmptyString; Env := [] |}.

(** the two values of [ctx.Err()] other than nil *)
Inductive ctx_error := Canceled | DeadlineExceeded.

(** What the goroutine observes once [cmd2.CombinedOutput()] has returned:
    the captured bytes, the error (nil on exit status 0), [ctx.Err()] at
    that moment and the time since [toolStart]. *)
Record Finished := {
  out : string;
  err : option string;
  ctx_Err : option ctx_error;
  elapsed : Z
}.

End Exec.

(** ** Services of the Go library and of the operating system

    Everything the repository calls but does not define.  The development
    is parametric in them; the ASCII fast paths of [strings.ToLower] and
    [strings.TrimSpace] are written out below, only their Unicode slow
    paths are taken from here. *)
Class Platform := {
  (** [strings.Map(unicode.ToLower, s)], reached when [s] has a byte >= 0x80 *)
  unicode_ToLower : string -> string;
  (** [strings.TrimFunc(s, unicode.IsSpace)] *)
  unicode_TrimFunc_IsSpace : string -> string;
  (** [strings.TrimRightFunc(s, unicode.IsSpace)] *)
  unicode_TrimRightFunc_IsSpace : string -> string;
  (** [time.Duration.String] *)
  Duration_String : Z -> string;
  (** [filepath.Join] *)
  filepath_Join : string -> string -> string;
  (** [filepath.Abs]; [None] when it fails *)
  filepath_Abs : string -> option string;
  (** [http.DetectContentType] *)
  http_DetectContentType : list byte -> string;
  (** [exec.LookPath name] returned no error *)
  exec_LookPath : string -> bool;
  (** [os.Stat path] returned no error *)
  os_Stat_ok : string -> bool;
  (** [deps.RockyouPath()] and [deps.EnsureRockyouExists()]: they only
      probe and fill the file system *)
  deps_RockyouPath : string;
  deps_EnsureRockyouExists : string;
  (** the Python programs that the stegsolve, unicode-steg and spammimic
      builders format with [fmt.Sprintf] *)
  stegsolve_script : string -> string -> string;
  unicode_steg_script : string -> string;
  spammimic_script : string -> string;
  (** the subprocess started by the goroutine of index [idx] for a command
      under a deadline (a [time.Duration] from now) *)
  run_process : nat -> Exec.Cmd -> Z -> Exec.Finished;
  (** [time.Since(startTime)] read after the join *)
  batch_elapsed : Z
}.

(** ** Package strings (ASCII paths) *)
Module Strings.

Definition isASCII (c : ascii) : bool := (N_of_ascii c <? 128)%N.

Definition isUpperASCII (c : ascii) : bool :=
  ((65 <=? N_of_ascii c) && (N_of_ascii c <=? 90))%N.

Definition lowerASCII (c : ascii) : ascii :=
  if isUpperASCII c then ascii_of_N (N_of_ascii c + 32) else c.

Fixpoint all_bytes (p : ascii -> bool) (s : string) : bool :=
  match s with
  | EmptyString => true
  | String c s' => p c && all_bytes p s'
  end.

Fixpoint map_bytes (f : ascii -> ascii) (s : string) : string :=
  match s with
  | EmptyString => EmptyString
  | String c s' => String (f c) (map_bytes f s')
  end.

(** [strings.ToLower]: an all-ASCII string has its letters A-Z lowered
    byte by byte, any other string goes through [unicode.ToLower]. *)
Definition ToLower `{Platform} (s : string) : string :=
  if all_bytes isASCII s then map_bytes lowerASCII s else unicode_ToLower s.

(** the table [asciiSpace]: tab, LF, VT, FF, CR and space *)
Definition asciiSpace (c : ascii) : bool :=
  let n := N_of_ascii c in
  ((n =? 9) || (n =? 10) || (n =? 11) || (n =? 12) || (n =? 13) || (n =? 32))%N.

(** Scan from the left while the bytes are ASCII space.  [inl rest]: the
    scan stopped in front of [rest]; [inr rest]: it met the non-ASCII first
    byte of [rest]. *)
Fixpoint skipSpace (s : string) : string + string :=
  match s with
  | EmptyString => inl EmptyString
  | String c s' =>
      if negb (isASCII c) then inr s
      else if asciiSpace c then skipSpace s'
      else inl s
  end.

Fixpoint rev_string (acc s : string) : string :=
  match s with
  | EmptyString => acc
  | String c s' => rev_string (String c acc) s'
  end.

(** [strings.TrimSpace] *)
Definition TrimSpace `{Platform} (s : string) : string :=
  match skipSpace s with
  | inr rest => unicode_TrimFunc_IsSpace rest
  | inl from_start =>
      match skipSpace (rev_string EmptyString from_start) with
      | inr rest => unicode_TrimRightFunc_IsSpace (rev_string EmptyString rest)
      | inl kept => rev_string EmptyString kept
      end
  end.

End Strings.

(** ** Package detector *)
Module Detector.

(** [FileCategory] and its twelve constants *)
Inductive FileCategory : Set :=
| CategoryPNG | CategoryJPG | CategoryBMP | CategoryGIF | CategoryTIFF
| CategoryWEBP | CategoryWAV | CategoryMP3 | CategoryFLAC | CategoryOGG
| CategoryAU | CategoryUnknown.

#[global] Instance FileCategory_eq_dec : EqDecision FileCategory.
Proof. solve_decision. Defined.

(** the string value of each constant *)
Definition category_string (c : FileCategory) : string :=
  match c with
  | CategoryPNG => "png" | CategoryJPG => "jpg" | CategoryBMP => "bmp"
  | CategoryGIF => "gif" | CategoryTIFF => "tiff" | CategoryWEBP => "webp"
  | CategoryWAV => "wav" | CategoryMP3 => "mp3" | CategoryFLAC => "flac"
  | CategoryOGG => "ogg" | CategoryAU => "au" | CategoryUnknown => "unknown"
  end.

Record FileInfo := {
  Path : string;
  Name : string;
  Size : Z;
  Category : FileCategory;
  MimeType : string;
  Extension : string
}.

Definition IsImage (f : FileInfo) : bool :=
  match Category f with
  | CategoryPNG | CategoryJPG | CategoryBMP | CategoryGIF | CategoryTIFF
  | CategoryWEBP => true
  | _ => false
  end.


(** [header[i] == b]; every use below is behind the length test that keeps
    the index in range in the source *)
Definition byte_is (header : list byte) (i : nat) (b : byte) : bool :=
  Byte.eqb (nth i header x00) b.

(** the fallback table on the (lower-cased) extension *)
Definition categoryOfExt (ext : string) : FileCategory :=
  if String.eqb ext ".png" then CategoryPNG
  else if String.eqb ext ".jpg" || String.eqb ext ".jpeg"
          || String.eqb ext ".jfif" || String.eqb ext ".jpe" then CategoryJPG
  else if String.eqb ext ".bmp" then CategoryBMP
  else if String.eqb ext ".gif" then CategoryGIF
  else if String.eqb ext ".tiff" || String.eqb ext ".tif" then CategoryTIFF
  else if String.eqb ext ".webp" then CategoryWEBP
  else if String.eqb ext ".wav" then CategoryWAV
  else if String.eqb ext ".mp3" then CategoryMP3
  else if String.eqb ext ".flac" then CategoryFLAC
  else if String.eqb ext ".ogg" then CategoryOGG
  else if String.eqb ext ".au" then CategoryAU
  else CategoryUnknown.

Definition detectCategory (mime ext : string) (header : list byte) : FileCategory :=
  let h := byte_is header in
  let riff := h 0%nat x52 && h 1%nat x49 && h 2%nat x46 && h 3%nat x46 in
  let long := (12 <=? length header)%nat in
  if negb (8 <=? length header)%nat then categoryOfExt ext
  (* PNG: 89 50 4E 47 *)
  else if h 0%nat x89 && h 1%nat x50 && h 2%nat x4e && h 3%nat x47 then CategoryPNG
  (* JPEG: FF D8 FF *)
  else if h 0%nat xff && h 1%nat xd8 && h 2%nat xff then CategoryJPG
  (* BMP: 42 4D *)
  else if h 0%nat x42 && h 1%nat x4d then CategoryBMP
  (* GIF: 47 49 46 38 *)
  else if h 0%nat x47 && h 1%nat x49 && h 2%nat x46 && h 3%nat x38 then CategoryGIF
  (* TIFF: 49 49 2A 00 or 4D 4D 00 2A *)
  else if (h 0%nat x49 && h 1%nat x49 && h 2%nat x2a && h 3%nat x00)
          || (h 0%nat x4d && h 1%nat x4d && h 2%nat x00 && h 3%nat x2a) then CategoryTIFF
  (* RIFF....WAVE *)
  else if riff && long && h 8%nat x57 && h 9%nat x41 && h 10%nat x56 && h 11%nat x45
       then CategoryWAV
  (* RIFF....WEBP *)
  else if riff && long && h 8%nat x57 && h 9%nat x45 && h 10%nat x42 && h 11%nat x50
       then CategoryWEBP
  (* FLAC: 66 4C 61 43 *)
  else if h 0%nat x66 && h 1%nat x4c && h 2%nat x61 && h 3%nat x43 then CategoryFLAC
  (* OGG: 4F 67 67 53 *)
  else if h 0%nat x4f && h 1%nat x67 && h 2%nat x67 && h 3%nat x53 then CategoryOGG
  (* MP3: frame sync FF Ex/Fx, or ID3 *)
  else if (h 0%nat xff && (N.land (Byte.to_N (nth 1 header x00)) 224 =? 224)%N)
          || (h 0%nat x49 && h 1%nat x44 && h 2%nat x33) then CategoryMP3
  (* AU: 2E 73 6E 64 *)
  else if h 0%nat x2e && h 1%nat x73 && h 2%nat x6e && h 3%nat x64 then CategoryAU
  else categoryOfExt ext.

(** [filepath.Ext]: the suffix from the last dot of the last path element.
    [ext_scan] walks the path from its end; [suffix] is what was passed. *)
Fixpoint ext_scan (rev_path suffix : string) : string :=
  match rev_path with
  | EmptyString => EmptyString
  | String c rest =>
      if Ascii.eqb c "/"%char then EmptyString
      else if Ascii.eqb c "."%char then String c suffix
      else ext_scan rest (String c suffix)
  end.

Definition filepath_Ext (path : string) : string :=
  ext_scan (Strings.rev_string EmptyString path) EmptyString.

(** What [os.Stat], [os.Open] and the first [Read] find at a path. *)
Inductive FsEntry :=
| NoEntry                                   (* [os.Stat] fails *)
| Directory
| Regular (name : string) (openable : bool) (content : list byte).

(** [Detect]; the error is its message up to the wrapped cause.  [Read]
    into the 512-byte buffer fails on an empty file (io.EOF), otherwise it
    is taken to deliver the first 512 bytes (fewer if the file is shorter). *)
Definition Detect `{Platform} (fs : string -> FsEntry) (filePath : string)
  : FileInfo + string :=
  match filepath_Abs filePath with
  | None => inr "invalid file path"
  | Some absPath =>
      match fs absPath with
      | NoEntry => inr "cannot access file"
      | Directory => inr "path is a directory, not a file"
      | Regular name openable content =>
          if negb openable then inr "cannot open file"
          else match content with
               | [] => inr "cannot read file"
               | _ =>
                   let buf := take 512 content in
                   let mimeType := http_DetectContentType buf in
                   let ext := Strings.ToLower (filepath_Ext absPath) in
                   let category := detectCategory mimeType ext buf in
                   inl {| Path := absPath; Name := name;
                          Size := Z.of_nat (length content);
                          Category := category; MimeType := mimeType;
                          Extension := ext |}
               end
      end
  end.

End Detector.

(** ** Package deps (the availability probe) *)
Module Deps.

Definition isCommandAvailable `{Platform} (name : string) : bool :=
  exec_LookPath name.

Definition IsToolAvailable `{Platform} (binary : string) : bool :=
  isCommandAvailable binary.

End Deps.

(** ** Package output (the result record) *)
Module Output.

Record Result := {
  ToolName : string;
  Category : string;
  Output : string;
  Error : option string;
  Duration : Z;
  Skipped : bool;
  SkipReason : string
}.

End Output.

(** ** Package runner *)
Module Runner.

Definition Second : Z := 1000000000.

Record RunOpts := {
  Password : string;
  Verbose : bool;
  OutputDir : string;
  Skip : list string;
  Only : list string;
  Timeout : Z
}.

Record Tool := {
  Name : string;
  Binary : string;
  Category : string;
  SupportedTypes : list Detector.FileCategory;
  (** [None] is the nil command *)
  BuildCmd : string -> RunOpts -> option Exec.Cmd
}.

(** A slot of [Results] is a pointer: [None] is nil. *)
Record ScanResult := {
  FileInfo : Detector.FileInfo;
  Results : list (option Output.Result);
  Duration : Z
}.

(** *** The tool registry *)

Definition allImageTypes : list Detector.FileCategory :=
  [Detector.CategoryPNG; Detector.CategoryJPG; Detector.CategoryBMP;
   Detector.CategoryGIF; Detector.CategoryTIFF; Detector.CategoryWEBP].

Definition allAudioTypes : list Detector.FileCategory :=
  [Detector.CategoryWAV; Detector.CategoryMP3; Detector.CategoryFLAC;
   Detector.CategoryOGG; Detector.CategoryAU].

Definition allTypes : list Detector.FileCategory :=
  (([] ++ allImageTypes) ++ allAudioTypes)%list.

(** the word list lookup shared by the two stegseek builders: the empty
    string is checked only on the path that had to fetch the list *)
Definition rockyou_wordlist `{Platform} : option string :=
  let rockyou := deps_RockyouPath in
  if negb (os_Stat_ok rockyou) then
    let rockyou := deps_EnsureRockyouExists in
    if String.eqb rockyou EmptyString then None else Some rockyou
  else Some rockyou.

(** [GetAllTools].  The directories that it and some builders create or
    clear are not part of the model. *)
Definition GetAllTools `{Platform} (opts : RunOpts) : list Tool :=
  let outputDir :=
    if String.eqb (OutputDir opts) EmptyString then "/tmp/steg-cli-output"
    else OutputDir opts in
  [ (* general tools *)
    {| Name := "file"; Binary := "file"; Category := "general";
       SupportedTypes := allTypes;
       BuildCmd := fun fp opts => Some (Exec.Command "file" ["-b"; "--mime"; fp]) |};
    {| Name := "exiftool"; Binary := "exiftool"; Category := "general";
       SupportedTypes := allTypes;
       BuildCmd := fun fp opts => Some (Exec.Command "exiftool" [fp]) |};
    {| Name := "binwalk"; Binary := "binwalk"; Category := "general";
       SupportedTypes := allTypes;
       BuildCmd := fun fp opts => Some (Exec.Command "binwalk" [fp]) |};
    {| Name := "strings"; Binary := "strings"; Category := "general";
       SupportedTypes := allTypes;
       BuildCmd := fun fp opts => Some (Exec.Command "strings" ["-n"; "8"; fp]) |};
    {| Name := "hexdump"; Binary := "xxd"; Category := "general";
       SupportedTypes := allTypes;
       BuildCmd := fun fp opts =>
         Some (Exec.Command "bash" ["-c"; "xxd '" +:+ fp +:+ "' | head -50"]) |};
    {| Name := "foremost"; Binary := "foremost"; Category := "general";
       SupportedTypes := allTypes;
       BuildCmd := fun fp opts =>
         let outDir := filepath_Join outputDir "foremost" in
         Some (Exec.Command "foremost" ["-t"; "all"; "-i"; fp; "-o"; outDir]) |};
    (* image tools *)
    {| Name := "zsteg"; Binary := "zsteg"; Category := "image";
       SupportedTypes := [Detector.CategoryPNG; Detector.CategoryBMP];
       BuildCmd := fun fp opts => Some (Exec.Command "zsteg" [fp; "--all"]) |};
    {| Name := "steghide-extract"; Binary := "steghide"; Category := "image";
       SupportedTypes := [Detector.CategoryJPG; Detector.CategoryBMP;
                          Detector.CategoryWAV; Detector.CategoryAU];
       BuildCmd := fun fp opts =>
         let pass := Password opts in
         let pass := if String.eqb pass EmptyString then EmptyString else pass in
         let outFile := filepath_Join outputDir "steghide_extracted.txt" in
         Some (Exec.Command "steghide"
                 ["extract"; "-sf"; fp; "-p"; pass; "-xf"; outFile; "-f"]) |};
    {| Name := "steghide-info"; Binary := "steghide"; Category := "image";
       SupportedTypes := [Detector.CategoryJPG; Detector.CategoryBMP;
                          Detector.CategoryWAV; Detector.CategoryAU];
       BuildCmd := fun fp opts =>
         Some (Exec.Command "steghide" ["info"; fp; "-p"; EmptyString]) |};
    {| Name := "pngcheck"; Binary := "pngcheck"; Category := "image";
       SupportedTypes := [Detector.CategoryPNG];
       BuildCmd := fun fp opts => Some (Exec.Command "pngcheck" ["-vtp"; fp]) |};
    {| Name := "identify"; Binary := "gm"; Category := "image";
       SupportedTypes := allImageTypes;
       BuildCmd := fun fp opts =>
         Some (Exec.Command "gm" ["identify"; "-verbose"; fp]) |};
    {| Name := "jsteg"; Binary := "jsteg"; Category := "image";
       SupportedTypes := [Detector.CategoryJPG];
       BuildCmd := fun fp opts => Some (Exec.Command "jsteg" ["reveal"; fp]) |};
    {| Name := "openstego"; Binary := "openstego"; Category := "image";
       SupportedTypes := [Detector.CategoryPNG];
       BuildCmd := fun fp opts =>
         let outFile := filepath_Join outputDir "openstego_extracted" in
         let pass := Password opts in
         let args := ["extract"; "--algorithm"; "RandomLSB"; "-sf"; fp; "-xd"; outFile] in
         let args := if negb (String.eqb pass EmptyString)
                     then (args ++ ["-p"; pass])%list else args in
         Some (Exec.Command "openstego" args) |};
    {| Name := "stegoveritas"; Binary := "stegoveritas"; Category := "image";
       SupportedTypes := allImageTypes;
       BuildCmd := fun fp opts =>
         let outDir := filepath_Join outputDir "stegoveritas" in
         Some (Exec.Command "stegoveritas" ["-out"; outDir; fp]) |};
    {| Name := "stegseek"; Binary := "stegseek"; Category := "image";
       SupportedTypes := [Detector.CategoryJPG; Detector.CategoryBMP;
                          Detector.CategoryWAV; Detector.CategoryAU];
       BuildCmd := fun fp opts =>
         match rockyou_wordlist with
         | None => None
         | Some rockyou =>
             let outFile := filepath_Join outputDir "stegseek_extracted.txt" in
             Some (Exec.Command "stegseek" [fp; rockyou; outFile; "--force"])
         end |};
    {| Name := "stegsolve"; Binary := "python3"; Category := "image";
       SupportedTypes := [Detector.CategoryPNG; Detector.CategoryBMP;
                          Detector.CategoryJPG];
       BuildCmd := fun fp opts =>
         let outDir := filepath_Join outputDir "stegsolve_planes" in
         let script := stegsolve_script outDir fp in
         Some (Exec.Command "python3" ["-c"; script]) |};
    (* audio tools *)
    {| Name := "steghide-audio"; Binary := "steghide"; Category := "audio";
       SupportedTypes := [Detector.CategoryWAV; Detector.CategoryAU];
       BuildCmd := fun fp opts =>
         let pass := Password opts in
         let pass := if String.eqb pass EmptyString then EmptyString else pass in
         let outFile := filepath_Join outputDir "steghide_audio_extracted.txt" in
         Some (Exec.Command "steghide"
                 ["extract"; "-sf"; fp; "-p"; pass; "-xf"; outFile; "-f"]) |};
    {| Name := "steghide-audio-info"; Binary := "steghide"; Category := "audio";
       SupportedTypes := [Detector.CategoryWAV; Detector.CategoryAU];
       BuildCmd := fun fp opts =>
         Some (Exec.Command "steghide" ["info"; fp; "-p"; EmptyString]) |};
    {| Name := "wavsteg"; Binary := "stegolsb"; Category := "audio";
       SupportedTypes := [Detector.CategoryWAV];
       BuildCmd := fun fp opts =>
         let outFile := filepath_Join outputDir "wavsteg_extracted.txt" in
         Some (Exec.Command "stegolsb"
                 ["wavsteg"; "-r"; "-i"; fp; "-o"; outFile; "-n"; "2"; "-b"; "1000"]) |};
    {| Name := "sox-spectrogram"; Binary := "sox"; Category := "audio";
       SupportedTypes := [Detector.CategoryWAV; Detector.CategoryMP3;
                          Detector.CategoryFLAC; Detector.CategoryOGG];
       BuildCmd := fun fp opts =>
         let outFile := filepath_Join outputDir "spectrogram.png" in
         let cmd := Exec.Command "sox" [fp; "-n"; "spectrogram"; "-o"; outFile] in
         Some cmd |};
    {| Name := "stegseek-audio"; Binary := "stegseek"; Category := "audio";
       SupportedTypes := [Detector.CategoryWAV; Detector.CategoryAU];
       BuildCmd := fun fp opts =>
         match rockyou_wordlist with
         | None => None
         | Some rockyou =>
             let outFile := filepath_Join outputDir "stegseek_audio_extracted.txt" in
             Some (Exec.Command "stegseek" [fp; rockyou; outFile; "--force"])
         end |};
    (* text / misc tools *)
    {| Name := "unicode-steg"; Binary := "python3"; Category := "text";
       SupportedTypes := allTypes;
       BuildCmd := fun fp opts =>
         let script := unicode_steg_script fp in
         Some (Exec.Command "python3" ["-c"; script]) |};
    {| Name := "spammimic"; Binary := "python3"; Category := "text";
       SupportedTypes := allTypes;
       BuildCmd := fun fp opts =>
         let script := spammimic_script fp in
         Some (Exec.Command "python3" ["-c"; script]) |}
  ].

(** *** filterTools *)

(** the loops that fill [skipSet] and [onlySet] *)
Definition lowerSet `{Platform} (names : list string) : gmap string bool :=
  foldl (fun set s => <[Strings.ToLower s := true]> set) ∅ names.

(** [set[key]] on a [map[string]bool]: [false] for an absent key *)
Definition has (set : gmap string bool) (key : string) : bool :=
  default false (set !! key).

(** the loop over [tool.SupportedTypes], left at the first match *)
Fixpoint supported (types : list Detector.FileCategory)
  (category : Detector.FileCategory) : bool :=
  match types with
  | [] => false
  | st :: rest => if bool_decide (st = category) then true else supported rest category
  end.

(** the loop over [tools]; [filtered] is the slice built so far *)
Fixpoint filterLoop `{Platform} (skipSet onlySet : gmap string bool)
  (fileInfo : Detector.FileInfo) (tools filtered : list Tool) : list Tool :=
  match tools with
  | [] => filtered
  | tool :: rest =>
      (* Check --skip *)
      if has skipSet (Strings.ToLower (Name tool))
      then filterLoop skipSet onlySet fileInfo rest filtered
      (* Check --only *)
      else if (0 <? size onlySet)%nat && negb (has onlySet (Strings.ToLower (Name tool)))
      then filterLoop skipSet onlySet fileInfo rest filtered
      (* Check supported types *)
      else if (0 <? length (SupportedTypes tool))%nat
              && negb (supported (SupportedTypes tool) (Detector.Category fileInfo))
      then filterLoop skipSet onlySet fileInfo rest filtered
      else filterLoop skipSet onlySet fileInfo rest (filtered ++ [tool])%list
  end.

Definition filterTools `{Platform} (tools : list Tool)
  (fileInfo : Detector.FileInfo) (opts : RunOpts) : list Tool :=
  let skipSet := lowerSet (Skip opts) in
  let onlySet := lowerSet (Only opts) in
  filterLoop skipSet onlySet fileInfo tools [].

(** *** RunAll *)

(** What a goroutine asks of the world, in the order it asks. *)
Inductive Event :=
| EvLookPath (binary : string)                 (* [deps.IsToolAvailable] *)
| EvBuildCmd (tool filePath : string)         (* [t.BuildCmd] is called *)
| EvRun (cmd : Exec.Cmd) (deadline : Z).       (* a subprocess is started *)

Definition skip (result : Output.Result) (reason : string) : Output.Result :=
  {| Output.ToolName := Output.ToolName result;
     Output.Category := Output.Category result;
     Output.Output := Output.Output result;
     Output.Error := Output.Error result;
     Output.Duration := Output.Duration result;
     Output.Skipped := true;
     Output.SkipReason := reason |}.

Definition withDuration (result : Output.Result) (d : Z) : Output.Result :=
  {| Output.ToolName := Output.ToolName result;
     Output.Category := Output.Category result;
     Output.Output := Output.Output result;
     Output.Error := Output.Error result;
     Output.Duration := d;
     Output.Skipped := Output.Skipped result;
     Output.SkipReason := Output.SkipReason result |}.

Definition withError (result : Output.Result) (e : string) : Output.Result :=
  {| Output.ToolName := Output.ToolName result;
     Output.Category := Output.Category result;
     Output.Output := Output.Output result;
     Output.Error := Some e;
     Output.Duration := Output.Duration result;
     Output.Skipped := Output.Skipped result;
     Output.SkipReason := Output.SkipReason result |}.

Definition withOutput (result : Output.Result) (o : string) : Output.Result :=
  {| Output.ToolName := Output.ToolName result;
     Output.Category := Output.Category result;
     Output.Output := o;
     Output.Error := Output.Error result;
     Output.Duration := Output.Duration result;
     Output.Skipped := Output.Skipped result;
     Output.SkipReason := Output.SkipReason result |}.

(** [cmd2]: [exec.CommandContext(ctx, cmd.Path, cmd.Args[1:]...)] with
    [Dir] and [Env] copied from [cmd]; the context is the deadline handed
    to [run_process]. *)
Definition rebuilt (cmd : Exec.Cmd) : Exec.Cmd :=
  let cmd2 := Exec.Command (Exec.Path cmd) (tail (Exec.Args cmd)) in
  {| Exec.Path := Exec.Path cmd2; Exec.Args := Exec.Args cmd2;
     Exec.Dir := Exec.Dir cmd; Exec.Env := Exec.Env cmd |}.

(** The body of the goroutine started for [applicable[idx]]: the events it
    causes and the value it stores in [results[idx]].  [None] is the panic
    of [cmd.Args[1:]] on a command without arguments, before any store. *)
Definition goroutine `{Platform} (fileInfo : Detector.FileInfo) (opts : RunOpts)
  (idx : nat) (t : Tool) : list Event * option Output.Result :=
  let result :=
    {| Output.ToolName := Name t; Output.Category := Category t;
       Output.Output := EmptyString; Output.Error := None; Output.Duration := 0;
       Output.Skipped := false; Output.SkipReason := EmptyString |} in
  (* Check if the binary exists *)
  if negb (Deps.IsToolAvailable (Binary t)) then
    ([EvLookPath (Binary t)],
     Some (skip result (Binary t +:+ " not installed")))
  else
    (* Build the command *)
    let built := [EvLookPath (Binary t); EvBuildCmd (Name t) (Detector.Path fileInfo)] in
    match BuildCmd t (Detector.Path fileInfo) opts with
    | None => (built, Some (skip result "command not applicable"))
    | Some cmd =>
        match Exec.Args cmd with
        | [] => (built, None)
        | _ :: _ =>
            (* Run with timeout *)
            let cmd2 := rebuilt cmd in
            let fin := run_process idx cmd2 (Timeout opts) in
            let result := withDuration result (Exec.elapsed fin) in
            let result :=
              match Exec.ctx_Err fin with
              | Some Exec.DeadlineExceeded =>
                  withError result ("timeout after " +:+ Duration_String (Timeout opts))
              | _ =>
                  match Exec.err fin with
                  | Some e =>
                      (* Some tools return non-zero exit codes even on success *)
                      let outStr := Strings.TrimSpace (Exec.out fin) in
                      if negb (String.eqb outStr EmptyString)
                      then withOutput result outStr
                      else withError result e
                  | None => withOutput result (Strings.TrimSpace (Exec.out fin))
                  end
              end in
            ((built ++ [EvRun cmd2 (Timeout opts)])%list, Some result)
        end
    end.

(** The shared slice and, as ghost state, the events of all goroutines
    tagged with the goroutine's index. *)
Record Batch := {
  slots : list (option Output.Result);
  log : list (nat * Event)
}.

(** A goroutine runs to its end: its one access to shared memory is the
    store into its own slot. *)
Definition finish `{Platform} (fileInfo : Detector.FileInfo) (opts : RunOpts)
  (idx : nat) (t : Tool) (b : Batch) : option Batch :=
  match goroutine fileInfo opts idx t with
  | (events, Some result) =>
      Some {| slots := <[idx := Some result]> (slots b);
              log := (log b ++ map (pair idx) events)%list |}
  | (_, None) => None
  end.

(** The goroutines finish in the order [sched]; an index that names no
    goroutine is passed over.  [None]: a goroutine panicked, which ends the
    process. *)
Fixpoint run_goroutines `{Platform} (fileInfo : Detector.FileInfo) (opts : RunOpts)
  (applicable : list Tool) (sched : list nat) (b : Batch) : option Batch :=
  match sched with
  | [] => Some b
  | idx :: rest =>
      match applicable !! idx with
      | Some t =>
          match finish fileInfo opts idx t b with
          | Some b' => run_goroutines fileInfo opts applicable rest b'
          | None => None
          end
      | None => run_goroutines fileInfo opts applicable rest b
      end
  end.

(** The Go scheduler: it decides in which order the started goroutines
    finish, and [wg.Wait()] returns once each of them has, exactly once. *)
Record Scheduler := {
  order : list nat -> list nat;
  order_perm : forall ids, order ids ≡ₚ ids
}.

Definition withTimeout (opts : RunOpts) (d : Z) : RunOpts :=
  {| Password := Password opts; Verbose := Verbose opts;
     OutputDir := OutputDir opts; Skip := Skip opts; Only := Only opts;
     Timeout := d |}.

(** [RunAll], with the event log next to the [*ScanResult]. *)
Definition RunAll `{Platform} (s : Scheduler) (fileInfo : Detector.FileInfo)
  (opts : RunOpts) : option (ScanResult * list (nat * Event)) :=
  let opts := if Timeout opts =? 0 then withTimeout opts (60 * Second) else opts in
  let allTools := GetAllTools opts in
  let applicable := filterTools allTools fileInfo opts in
  let results := replicate (length applicable) None in
  let started := seq 0 (length applicable) in
  match run_goroutines fileInfo opts applicable (order s started)
          {| slots := results; log := [] |} with
  | Some b =>
      Some ({| FileInfo := fileInfo; Results := slots b; Duration := batch_elapsed |},
            log b)
  | None => None
  end.

(** [RunOpts{}] *)
Definition zeroRunOpts : RunOpts :=
  {| Password := EmptyString; Verbose := false; OutputDir := EmptyString;
     Skip := []; Only := []; Timeout := 0 |}.

End Runner.

(** ** Package cmd: the options of the scan command *)
Module RootCmd.

(** the package-level flag variables *)
Record Flags := {
  password : string;
  skipTools : list string;
  onlyTools : list string;
  outputDir : string;
  verbose : bool;
  noInstall : bool;
  timeout : Z
}.

(** the [opts] that [scanCmd] hands to [runner.RunAll] *)
Definition scanOpts (f : Flags) : Runner.RunOpts :=
  let opts :=
    {| Runner.Password := password f; Runner.Verbose := verbose f;
       Runner.OutputDir := outputDir f; Runner.Skip := skipTools f;
       Runner.Only := onlyTools f;
       Runner.Timeout := 60 * 1000000000 (* 60s in nanoseconds *) |} in
  if 0 <? timeout f
  then Runner.withTimeout opts (Runner.Timeout Runner.zeroRunOpts) (* use default *)
  else opts.

(** [scanCmd.Run] up to the report: [inr] is the exit with status 1 after
    a failed detection. *)
Definition scanCmd_Run `{Platform} (s : Runner.Scheduler)
  (fs : string -> Detector.FsEntry) (f : Flags) (filePath : string)
  : option (Runner.ScanResult * list (nat * Runner.Event)) + string :=
  match Detector.Detect fs filePath with
  | inr e => inr e
  | inl fileInfo => inl (Runner.RunAll s fileInfo (scanOpts f))
  end.

End RootCmd.

(** ** Package runner and package output: the report *)
Module Report.

(** the numbers that [PrintSummary] prints *)
Record Tally := {
  total : nat;
  success : nat;
  failed : nat;
  skipped : nat;
  withOutput : nat
}.

(** The counting loop of [PrintSummary].  It reads [r.Skipped] through the
    pointer without a nil test: [None] is the panic on a nil slot. *)
Fixpoint tally `{Platform} (results : list (option Output.Result)) (t : Tally)
  : option Tally :=
  match results with
  | [] => Some t
  | None :: _ => None
  | Some r :: rest =>
      if Output.Skipped r then
        tally rest {| total := total t; success := success t; failed := failed t;
                      skipped := S (skipped t); withOutput := withOutput t |}
      else
        match Output.Error r with
        | Some _ =>
            tally rest {| total := total t; success := success t;
                          failed := S (failed t); skipped := skipped t;
                          withOutput := withOutput t |}
        | None =>
            tally rest {| total := total t; success := S (success t);
                          failed := failed t; skipped := skipped t;
                          withOutput :=
                            if negb (String.eqb (Strings.TrimSpace (Output.Output r))
                                       EmptyString)
                            then S (withOutput t) else withOutput t |}
        end
  end.

(** [PrintSummary]: the tallies it computes before printing them *)
Definition PrintSummary `{Platform} (results : list (option Output.Result))
  (totalDuration : Z) : option Tally :=
  tally results {| total := length results; success := 0; failed := 0;
                   skipped := 0; withOutput := 0 |}.

(** [strings.Split(s, sep)] for the one-byte separator LF *)
Fixpoint Split_LF (s : string) : list string :=
  match s with
  | EmptyString => [EmptyString]
  | String c s' =>
      if Ascii.eqb c "010"%char then EmptyString :: Split_LF s'
      else match Split_LF s' with
           | first :: others => String c first :: others
           | [] => [String c EmptyString]
           end
  end.

(** one printed line of [PrintToolResult], without colours and padding *)
Inductive Line :=
| LineSkipped (tool reason : string)
| LineError (tool : string) (d : Z) (e : string)
| LineNoOutput (tool : string) (d : Z)
| LineOk (tool : string) (d : Z)
| LineOutput (line : string)
| LineMore (n : Z).

Definition maxLines : nat := 30.

(** the loop over [lines] of [PrintToolResult], entered at index [i] *)
Fixpoint printLines (lines : list string) (i : nat) (len_lines : nat) : list Line :=
  match lines with
  | [] => []
  | line :: rest =>
      if (maxLines <=? i)%nat
      then [LineMore (Z.of_nat len_lines - Z.of_nat maxLines)]
      else LineOutput line :: printLines rest (S i) len_lines
  end.

Definition PrintToolResult `{Platform} (result : Output.Result) : list Line :=
  if Output.Skipped result then
    [LineSkipped (Output.ToolName result) (Output.SkipReason result)]
  else
    match Output.Error result with
    | Some e => [LineError (Output.ToolName result) (Output.Duration result) e]
    | None =>
        let output := Strings.TrimSpace (Output.Output result) in
        if String.eqb output EmptyString then
          [LineNoOutput (Output.ToolName result) (Output.Duration result)]
        else
          let lines := Split_LF output in
          LineOk (Output.ToolName result) (Output.Duration result)
          :: printLines lines 0 (length lines)
    end.

(** *** runner.PrintResults *)

Definition categories : list string := ["general"; "image"; "audio"; "text"].

(** the map [categoryNames]; the zero value for a missing key *)
Definition categoryNames (cat : string) : string :=
  if String.eqb cat "general" then "🔧 General Analysis"
  else if String.eqb cat "image" then "🖼️  Image Steganography"
  else if String.eqb cat "audio" then "🎵 Audio Steganography"
  else if String.eqb cat "text" then "📝 Text / Misc Steganography"
  else EmptyString.

(** the inner loop: the non-nil results of category [cat], in order *)
Fixpoint catResults (results : list (option Output.Result)) (cat : string)
  : list Output.Result :=
  match results with
  | [] => []
  | Some r :: rest =>
      if String.eqb (Output.Category r) cat
      then r :: catResults rest cat
      else catResults rest cat
  | None :: rest => catResults rest cat
  end.

(** the outer loop: a header and its results for each category that has
    results *)
Fixpoint sections (results : list (option Output.Result)) (cats : list string)
  : list (string * list Output.Result) :=
  match cats with
  | [] => []
  | cat :: rest =>
      let catRes := catResults results cat in
      if (length catRes =? 0)%nat then sections results rest
      else (categoryNames cat, catRes) :: sections results rest
  end.

(** [PrintResults]: the sections in the order printed, then the summary *)
Definition PrintResults `{Platform} (scanResult : Runner.ScanResult)
  : list (string * list Output.Result) * option Tally :=
  (sections (Runner.Results scanResult) categories,
   PrintSummary (Runner.Results scanResult) (Runner.Duration scanResult)).

(** *** truncate *)

(** [s[n:]] for [0 <= n <= len(s)] *)
Fixpoint from_byte (n : nat) (s : string) : string :=
  match n, s with
  | O, _ => s
  | S n', String _ s' => from_byte n' s'
  | S _, EmptyString => EmptyString
  end.

(** [truncate]; [None] is the panic of the slice expression when its start
    lies beyond the end of [s] *)
Definition truncate (s : string) (max : Z) : option string :=
  let len := Z.of_nat (String.length s) in
  if len <=? max then Some s
  else
    let start := len - max + 3 in
    if (start <? 0) || (len <? start) then None
    else Some ("..." +:+ from_byte (Z.to_nat start) s).

End Report.

(** ** Package deps: the catalogue and the status check *)
Module Catalog.

Record ToolDep := {
  Name : string;
  Binary : string;
  AltBinaries : list string;
  InstallType : string;
  AptPkg : string;
  PacmanPkg : string;
  AurPkg : string;
  DnfPkg : string;
  ZypperPkg : string;
  PipPkg : string;
  GemPkg : string;
  GoPath : string;
  ManualURL : string;
  Description : string
}.

(** a literal that sets no field but [Name], [Binary], [InstallType] and
    [Description] *)
Definition plain (name binary installType description : string) : ToolDep :=
  {| Name := name; Binary := binary; AltBinaries := [];
     InstallType := installType; AptPkg := EmptyString;
     PacmanPkg := EmptyString; AurPkg := EmptyString; DnfPkg := EmptyString;
     ZypperPkg := EmptyString; PipPkg := EmptyString; GemPkg := EmptyString;
     GoPath := EmptyString; ManualURL := EmptyString;
     Description := description |}.

(** a literal of install type system *)
Definition system (name binary apt pacman aur dnf zypper url description : string)
  : ToolDep :=
  {| Name := name; Binary := binary; AltBinaries := [];
     InstallType := "system"; AptPkg := apt; PacmanPkg := pacman;
     AurPkg := aur; DnfPkg := dnf; ZypperPkg := zypper;
     PipPkg := EmptyString; GemPkg := EmptyString; GoPath := EmptyString;
     ManualURL := url; Description := description |}.

Definition pip (name binary pkg description : string) : ToolDep :=
  {| Name := name; Binary := binary; AltBinaries := [];
     InstallType := "pip"; AptPkg := EmptyString; PacmanPkg := EmptyString;
     AurPkg := EmptyString; DnfPkg := EmptyString; ZypperPkg := EmptyString;
     PipPkg := pkg; GemPkg := EmptyString; GoPath := EmptyString;
     ManualURL := EmptyString; Description := description |}.

Definition AllTools : list ToolDep :=
  [ plain "file" "file" "builtin" "File type identification";
    plain "strings" "strings" "builtin" "Extract printable strings";
    system "xxd" "xxd" "xxd" "xxd" EmptyString "vim-common" "vim-data-common"
      EmptyString "Hex dump utility";
    system "exiftool" "exiftool" "libimage-exiftool-perl" "perl-image-exiftool"
      EmptyString "perl-Image-ExifTool" "exiftool" EmptyString "Metadata extraction";
    system "binwalk" "binwalk" "binwalk" "binwalk" EmptyString "binwalk" "binwalk"
      EmptyString "Embedded file detection";
    system "foremost" "foremost" "foremost" "foremost" EmptyString "foremost"
      "foremost" EmptyString "File carving tool";
    system "steghide" "steghide" "steghide" "steghide" EmptyString "steghide"
      "steghide" EmptyString "Steganography hide/extract (JPG/BMP/WAV/AU)";
    {| Name := "zsteg"; Binary := "zsteg"; AltBinaries := [];
       InstallType := "gem"; AptPkg := EmptyString; PacmanPkg := EmptyString;
       AurPkg := EmptyString; DnfPkg := EmptyString; ZypperPkg := EmptyString;
       PipPkg := EmptyString; GemPkg := "zsteg"; GoPath := EmptyString;
       ManualURL := EmptyString; Description := "LSB steganography (PNG/BMP)" |};
    system "pngcheck" "pngcheck" "pngcheck" "pngcheck" EmptyString "pngcheck"
      "pngcheck" EmptyString "PNG integrity check";
    pip "stegoveritas" "stegoveritas" "stegoveritas" "Advanced image steganalysis";
    system "stegseek" "stegseek" "stegseek" EmptyString "stegseek" EmptyString
      EmptyString "https://github.com/RickdeJager/stegseek/releases"
      "Fast steghide brute-force cracker";
    system "openstego" "openstego" "openstego" EmptyString "openstego" EmptyString
      EmptyString "https://github.com/syvaidya/OpenStego/releases"
      "OpenStego extraction (PNG)";
    {| Name := "jsteg"; Binary := "jsteg"; AltBinaries := [];
       InstallType := "go"; AptPkg := EmptyString; PacmanPkg := EmptyString;
       AurPkg := EmptyString; DnfPkg := EmptyString; ZypperPkg := EmptyString;
       PipPkg := EmptyString; GemPkg := EmptyString;
       GoPath := "lukechampine.com/jsteg@latest";
       ManualURL := EmptyString;
       Description := "JPEG steganography (no password)" |};
    system "GraphicsMagick" "gm" "graphicsmagick" "graphicsmagick" EmptyString
      "GraphicsMagick" "GraphicsMagick" EmptyString
      "Image identification and analysis";
    system "sox" "sox" "sox" "sox" EmptyString "sox" "sox" EmptyString
      "Audio spectrogram generation";
    pip "stegolsb" "stegolsb" "stego-lsb" "WAV LSB steganography";
    pip "stegsolve" "python3" "Pillow" "Stegsolve-like bitplane extraction"
  ].

(** the loop over [tool.AltBinaries], left at the first one found *)
Fixpoint anyAvailable `{Platform} (alts : list string) : bool :=
  match alts with
  | [] => false
  | alt :: rest => if Deps.isCommandAvailable alt then true else anyAvailable rest
  end.

(** the value of [available] that [CheckAll] stores for one tool *)
Definition available `{Platform} (tool : ToolDep) : bool :=
  let available := Deps.isCommandAvailable (Binary tool) in
  if negb available then anyAvailable (AltBinaries tool) else available.

(** the loop of [CheckAll] over a list of tools *)
Definition checkTools `{Platform} (tools : list ToolDep) : gmap string bool :=
  foldl (fun status tool => <[Name tool := available tool]> status) ∅ tools.

Definition CheckAll `{Platform} : gmap string bool := checkTools AllTools.

End Catalog.

(** ** Package deps: distribution detection and the installer *)
Module Install.

Inductive Distro :=
| DistroDebian | DistroArch | DistroFedora | DistroSuse | DistroUnknown.

(** The machine as the installer reads and changes it.  A command that is
    run may change what later lookups find, so every service takes the
    state of the machine. *)
Class Machine := {
  World : Type;
  (** [runtime.GOOS] *)
  GOOS : string;
  (** [exec.LookPath name] returns no error *)
  LookPath : World -> string -> bool;
  (** [cmd.Run()]: its error (None is nil) and the machine afterwards *)
  Run : World -> Exec.Cmd -> option string * World;
  (** [os.ReadFile] of /etc/os-release; None when it fails *)
  ReadFile_os_release : World -> option string;
  (** [os.UserHomeDir], [os.Getenv] of GOPATH and [os.Environ] *)
  UserHomeDir : World -> string;
  Getenv_GOPATH : World -> string;
  Environ : World -> list string;
  (** the effect of [ensureRockyou] on the machine *)
  ensureRockyou : World -> World
}.

(** the machine and the commands run so far, each with its error *)
Record St `{Machine} := {
  world : World;
  ran : list (Exec.Cmd * option string)
}.

Definition isCommandAvailable `{Machine} (st : St) (name : string) : bool :=
  LookPath (world st) name.

(** [cmd.Run()] on the current machine *)
Definition run `{Machine} (cmd : Exec.Cmd) (st : St) : option string * St :=
  let '(e, w) := Run (world st) cmd in
  (e, {| world := w; ran := (ran st ++ [(cmd, e)])%list |}).

Fixpoint HasPrefix (s prefix : string) : bool :=
  match prefix, s with
  | EmptyString, _ => true
  | String a prefix', String b s' => Ascii.eqb a b && HasPrefix s' prefix'
  | String _ _, EmptyString => false
  end.

(** [strings.Contains] *)
Fixpoint Contains (s substr : string) : bool :=
  HasPrefix s substr
  || match s with
     | EmptyString => false
     | String _ s' => Contains s' substr
     end.

Definition DetectDistro `{Platform} `{Machine} (st : St) : Distro :=
  if negb (String.eqb GOOS "linux") then DistroUnknown
  (* Check for each package manager *)
  else if isCommandAvailable st "apt-get" then DistroDebian
  else if isCommandAvailable st "pacman" then DistroArch
  else if isCommandAvailable st "dnf" then DistroFedora
  else if isCommandAvailable st "zypper" then DistroSuse
  else
    (* Fallback: read /etc/os-release *)
    match ReadFile_os_release (world st) with
    | Some data =>
        let content := Strings.ToLower data in
        if Contains content "ubuntu" || Contains content "debian"
           || Contains content "kali" || Contains content "mint" then DistroDebian
        else if Contains content "arch" || Contains content "manjaro"
                || Contains content "endeavour" then DistroArch
        else if Contains content "fedora" || Contains content "rhel"
                || Contains content "centos" || Contains content "rocky"
             then DistroFedora
        else if Contains content "suse" then DistroSuse
        else DistroUnknown
    | None => DistroUnknown
    end.

(** [installAUR]: yay first, then paru; neither is run through sudo *)
Definition installAUR `{Machine} (pkg : string) (st : St) : option string * St :=
  let failed := Some ("no AUR helper (yay/paru) found or install failed for " +:+ pkg) in
  let paru st :=
    if isCommandAvailable st "paru" then
      let '(e, st) := run (Exec.Command "paru" ["-S"; "--noconfirm"; "--needed"; pkg]) st in
      match e with
      | None => (None, st)
      | Some _ => (failed, st)
      end
    else (failed, st) in
  if isCommandAvailable st "yay" then
    let '(e, st) := run (Exec.Command "yay" ["-S"; "--noconfirm"; "--needed"; pkg]) st in
    match e with
    | None => (None, st)
    | Some _ => paru st
    end
  else paru st.

(** the tail of [installSystem]: run [cmd], and on Arch fall back to the
    AUR package when the command fails *)
Definition runSystem `{Machine} (tool : Catalog.ToolDep) (distro : Distro)
  (cmd : Exec.Cmd) (st : St) : option string * St :=
  let '(e, st) := run cmd st in
  match e, distro with
  | Some _, DistroArch =>
      if negb (String.eqb (Catalog.AurPkg tool) EmptyString)
      then installAUR (Catalog.AurPkg tool) st
      else (e, st)
  | _, _ => (e, st)
  end.

Definition installSystem `{Machine} (tool : Catalog.ToolDep) (distro : Distro)
  (st : St) : option string * St :=
  match distro with
  | DistroDebian =>
      if String.eqb (Catalog.AptPkg tool) EmptyString
      then (Some "no apt package available", st)
      else runSystem tool distro
             (Exec.Command "sudo" ["apt-get"; "install"; "-y"; Catalog.AptPkg tool]) st
  | DistroArch =>
      (* Try official repo first, then AUR *)
      if negb (String.eqb (Catalog.PacmanPkg tool) EmptyString)
      then runSystem tool distro
             (Exec.Command "sudo" ["pacman"; "-S"; "--noconfirm"; Catalog.PacmanPkg tool]) st
      else if negb (String.eqb (Catalog.AurPkg tool) EmptyString)
      then installAUR (Catalog.AurPkg tool) st
      else (Some "no pacman/AUR package available", st)
  | DistroFedora =>
      if String.eqb (Catalog.DnfPkg tool) EmptyString
      then (Some "no dnf package available", st)
      else runSystem tool distro
             (Exec.Command "sudo" ["dnf"; "install"; "-y"; Catalog.DnfPkg tool]) st
  | DistroSuse =>
      if String.eqb (Catalog.ZypperPkg tool) EmptyString
      then (Some "no zypper package available", st)
      else runSystem tool distro
             (Exec.Command "sudo" ["zypper"; "install"; "-y"; Catalog.ZypperPkg tool]) st
  | DistroUnknown => (Some "unknown distro, cannot install automatically", st)
  end.

Definition installPip `{Machine} (tool : Catalog.ToolDep) (st : St)
  : option string * St :=
  (* Try pip3 first, then pip *)
  let pip := if negb (isCommandAvailable st "pip3") then "pip" else "pip3" in
  if negb (isCommandAvailable st pip)
  then (Some "pip/pip3 not found, install python3-pip first", st)
  else
    let '(e, st) :=
      run (Exec.Command pip ["install"; "--break-system-packages"; Catalog.PipPkg tool])
        st in
    match e with
    | Some _ =>
        (* Fallback without --break-system-packages for older pip *)
        run (Exec.Command pip ["install"; Catalog.PipPkg tool]) st
    | None => (None, st)
    end.

Definition installGem `{Machine} (tool : Catalog.ToolDep) (st : St)
  : option string * St :=
  if negb (isCommandAvailable st "gem")
  then (Some "gem not found, install ruby first", st)
  else run (Exec.Command "gem" ["install"; Catalog.GemPkg tool]) st.

Definition installGo `{Platform} `{Machine} (tool : Catalog.ToolDep) (st : St)
  : option string * St :=
  if negb (isCommandAvailable st "go") then (Some "go not found", st)
  else
    let cmd := Exec.Command "go" ["install"; Catalog.GoPath tool] in
    let home := UserHomeDir (world st) in
    let gopath := Getenv_GOPATH (world st) in
    let gopath := if String.eqb gopath EmptyString
                  then filepath_Join home "go" else gopath in
    let cmd :=
      {| Exec.Path := Exec.Path cmd; Exec.Args := Exec.Args cmd;
         Exec.Dir := Exec.Dir cmd;
         Exec.Env := (Environ (world st)
                      ++ ["GOBIN=" +:+ filepath_Join gopath "bin"])%list |} in
    run cmd st.

(** what [InstallMissing] prints about one tool *)
Inductive Outcome :=
| AlreadyInstalled
| Failed (e : string) (manual : option string)
| Done.

(** the loop of [InstallMissing] over the tools; the lines it prints are
    collected in order *)
Fixpoint installLoop `{Platform} `{Machine} (distro : Distro)
  (tools : list Catalog.ToolDep) (st : St) : list (string * Outcome) * St :=
  match tools with
  | [] => ([], st)
  | tool :: rest =>
      if isCommandAvailable st (Catalog.Binary tool) then
        let '(report, st) := installLoop distro rest st in
        ((Catalog.Name tool, AlreadyInstalled) :: report, st)
      else if String.eqb (Catalog.InstallType tool) "builtin" then
        installLoop distro rest st
      else
        let '(err, st) :=
          if String.eqb (Catalog.InstallType tool) "system"
          then installSystem tool distro st
          else if String.eqb (Catalog.InstallType tool) "pip" then installPip tool st
          else if String.eqb (Catalog.InstallType tool) "gem" then installGem tool st
          else if String.eqb (Catalog.InstallType tool) "go" then installGo tool st
          else (None, st) in
        let line :=
          match err with
          | Some e =>
              Failed e (if negb (String.eqb (Catalog.ManualURL tool) EmptyString)
                        then Some (Catalog.ManualURL tool) else None)
          | None => Done
          end in
        let '(report, st) := installLoop distro rest st in
        ((Catalog.Name tool, line) :: report, st)
  end.

(** [InstallMissing]: the lines about the tools, the commands run for them
    and the machine after the closing [ensureRockyou]; the error returned
    is always nil *)
Definition InstallMissing `{Platform} `{Machine} (w : World)
  : list (string * Outcome) * St :=
  let st := {| world := w; ran := [] |} in
  let distro := DetectDistro st in
  let '(report, st) := installLoop distro Catalog.AllTools st in
  (report, {| world := ensureRockyou (world st); ran := ran st |}).

End Install.

(** ** A sample platform, scheduler and inputs

    One concrete world on which the definitions run: four binaries are
    installed, no word list can be had, [file] succeeds, [exiftool] runs
    into its deadline, [strings] exits with status 1 after printing, the
    Python tools exit with status 2 and blank output. *)
Module Sample.

Definition nl : string := String "010"%char EmptyString.

Definition process (idx : nat) (cmd : Exec.Cmd) (deadline : Z) : Exec.Finished :=
  if deadline <=? 0 then
    {| Exec.out := EmptyString; Exec.err := Some "context deadline exceeded";
       Exec.ctx_Err := Some Exec.DeadlineExceeded; Exec.elapsed := 0 |}
  else if String.eqb (Exec.Path cmd) "file" then
    {| Exec.out := "image/png; charset=binary" +:+ nl; Exec.err := None;
       Exec.ctx_Err := None; Exec.elapsed := 5000000 |}
  else if String.eqb (Exec.Path cmd) "exiftool" then
    {| Exec.out := EmptyString; Exec.err := Some "signal: killed";
       Exec.ctx_Err := Some Exec.DeadlineExceeded; Exec.elapsed := deadline |}
  else if String.eqb (Exec.Path cmd) "strings" then
    {| Exec.out := "  flag{hidden_in_plain_sight}" +:+ nl;
       Exec.err := Some "exit status 1";
       Exec.ctx_Err := None; Exec.elapsed := 12000000 |}
  else
    {| Exec.out := " " +:+ nl; Exec.err := Some "exit status 2";
       Exec.ctx_Err := None; Exec.elapsed := 8000000 |}.

#[local] Instance platform : Platform := {|
  unicode_ToLower := fun s => s;
  unicode_TrimFunc_IsSpace := fun s => s;
  unicode_TrimRightFunc_IsSpace := fun s => s;
  Duration_String := fun d =>
    if d =? 60000000000 then "1m0s" else if d =? -1 then "-1ns" else "0s";
  filepath_Join := fun a b => a +:+ "/" +:+ b;
  filepath_Abs := fun p => Some p;
  http_DetectContentType := fun _ => "application/octet-stream";
  exec_LookPath := fun name =>
    String.eqb name "file" || String.eqb name "exiftool"
    || String.eqb name "strings" || String.eqb name "python3";
  os_Stat_ok := fun _ => false;
  deps_RockyouPath := "/root/.steg-cli/wordlists/rockyou.txt";
  deps_EnsureRockyouExists := EmptyString;
  stegsolve_script := fun outDir fp => "planes " +:+ outDir +:+ " " +:+ fp;
  unicode_steg_script := fun fp => "zwc " +:+ fp;
  spammimic_script := fun fp => "spam " +:+ fp;
  run_process := process;
  batch_elapsed := 60000000000
|}.

(** goroutines finish in the order they were started *)
Definition in_order : Runner.Scheduler :=
  {| Runner.order := fun ids => ids;
     Runner.order_perm := fun ids => Permutation_refl ids |}.

(** goroutines finish in the reverse order *)
Definition reversed : Runner.Scheduler :=
  {| Runner.order := fun ids => rev ids;
     Runner.order_perm := fun ids => Permutation_sym (Permutation_rev ids) |}.

Definition file_of (category : Detector.FileCategory) : Detector.FileInfo :=
  {| Detector.Path := "/tmp/secret"; Detector.Name := "secret";
     Detector.Size := 1024; Detector.Category := category;
     Detector.MimeType := "application/octet-stream";
     Detector.Extension := EmptyString |}.

Definition opts_with (only : list string) (d : Z) : Runner.RunOpts :=
  {| Runner.Password := EmptyString; Runner.Verbose := false;
     Runner.OutputDir := EmptyString; Runner.Skip := []; Runner.Only := only;
     Runner.Timeout := d |}.

(** a tool that declares no file category *)
Definition generic : Runner.Tool :=
  {| Runner.Name := "sha256"; Runner.Binary := "sha256sum";
     Runner.Category := "general"; Runner.SupportedTypes := [];
     Runner.BuildCmd := fun fp opts => Some (Exec.Command "sha256sum" [fp]) |}.

(** the registry entry of exiftool *)
Definition exiftool : Runner.Tool :=
  default generic (Runner.GetAllTools (opts_with [] 0) !! 1%nat).

(** exiftool both skipped and asked for, in different cases *)
Definition skip_and_only : Runner.RunOpts :=
  {| Runner.Password := EmptyString; Runner.Verbose := false;
     Runner.OutputDir := EmptyString; Runner.Skip := ["EXIFTOOL"];
     Runner.Only := ["ExifTool"; "zsteg"]; Runner.Timeout := 0 |}.

(** the flags of [steg scan --timeout 5 <file>] *)
Definition flags_timeout_5 : RootCmd.Flags :=
  {| RootCmd.password := EmptyString; RootCmd.skipTools := [];
     RootCmd.onlyTools := []; RootCmd.outputDir := EmptyString;
     RootCmd.verbose := false; RootCmd.noInstall := false;
     RootCmd.timeout := 5 |}.

(** the tool at an index of the filtered list for a PNG file and default
    options *)
Definition png_tool (idx : nat) : Runner.Tool :=
  default generic
    (Runner.filterTools (Runner.GetAllTools (opts_with [] 0))
       (file_of Detector.CategoryPNG) (opts_with [] 0) !! idx).

(** the commands built for /tmp/secret by exiftool and by strings, and
    what [process] answers for them under the deadline 60 s *)
Definition exiftool_cmd : Exec.Cmd := Exec.Command "exiftool" ["/tmp/secret"].

Definition strings_cmd : Exec.Cmd :=
  Exec.Command "strings" ["-n"; "8"; "/tmp/secret"].

Definition strings_finished : Exec.Finished :=
  process 3 strings_cmd 60000000000.

(** a file of the four bytes 89 50 4E 47, named with a .txt extension *)
Definition short_png (path : string) : Detector.FsEntry :=
  if String.eqb path "/tmp/tiny.txt"
  then Detector.Regular "tiny.txt" true [x89; x50; x4e; x47]
  else Detector.NoEntry.

End Sample.

(** ** A second platform and more inputs

    The sample platform with every binary installed, and results to print. *)
Module Scenario.

#[local] Instance all_installed : Platform := {|
  unicode_ToLower := fun s => s;
  unicode_TrimFunc_IsSpace := fun s => s;
  unicode_TrimRightFunc_IsSpace := fun s => s;
  Duration_String := fun d => if d =? 60000000000 then "1m0s" else "0s";
  filepath_Join := fun a b => a +:+ "/" +:+ b;
  filepath_Abs := fun p => Some p;
  http_DetectContentType := fun _ => "application/octet-stream";
  exec_LookPath := fun _ => true;
  os_Stat_ok := fun _ => false;
  deps_RockyouPath := "/root/.steg-cli/wordlists/rockyou.txt";
  deps_EnsureRockyouExists := EmptyString;
  stegsolve_script := fun outDir fp => "planes " +:+ outDir +:+ " " +:+ fp;
  unicode_steg_script := fun fp => "zwc " +:+ fp;
  spammimic_script := fun fp => "spam " +:+ fp;
  run_process := Sample.process;
  batch_elapsed := 60000000000
|}.

(** the tool at an index of the filtered list for a JPG file and default
    options *)
Definition jpg_tool (idx : nat) : Runner.Tool :=
  default Sample.generic
    (Runner.filterTools (Runner.GetAllTools (Sample.opts_with [] 0))
       (Sample.file_of Detector.CategoryJPG) (Sample.opts_with [] 0) !! idx).

(** the command built for /tmp/secret by file, and what the sample process
    answers for it *)
Definition file_cmd : Exec.Cmd := Exec.Command "file" ["-b"; "--mime"; "/tmp/secret"].

Definition file_finished : Exec.Finished := Sample.process 0 file_cmd 60000000000.

(** a success with two lines of output *)
Definition two_lines : Output.Result :=
  {| Output.ToolName := "strings"; Output.Category := "general";
     Output.Output := "flag{one}" +:+ Sample.nl +:+ "flag{two}" +:+ Sample.nl;
     Output.Error := None; Output.Duration := 12000000;
     Output.Skipped := false; Output.SkipReason := EmptyString |}.

(** the catalogue entry of GraphicsMagick *)
Definition graphicsmagick : Catalog.ToolDep :=
  Catalog.system "GraphicsMagick" "gm" "graphicsmagick" "graphicsmagick" EmptyString
    "GraphicsMagick" "GraphicsMagick" EmptyString
    "Image identification and analysis".

(** A Debian machine on which the search path is a list of names: a
    command run through sudo succeeds and puts the package it names on the
    search path, any other command fails. *)
#[local] Instance debian : Install.Machine := {|
  Install.World := list string;
  Install.GOOS := "linux";
  Install.LookPath := fun w name => existsb (String.eqb name) w;
  Install.Run := fun w cmd =>
    if String.eqb (Exec.Path cmd) "sudo"
    then (None, default EmptyString (last (Exec.Args cmd)) :: w)
    else (Some "exit status 1", w);
  Install.ReadFile_os_release := fun _ => Some "ID=debian";
  Install.UserHomeDir := fun _ => "/root";
  Install.Getenv_GOPATH := fun _ => EmptyString;
  Install.Environ := fun _ => ["PATH=/usr/bin"];
  Install.ensureRockyou := fun w => w
|}.



Definition complete : list string := Catalog.Binary <$> Catalog.AllTools.

End Scenario.

(** ** Vocabulary of the properties *)

(** [opts] as [RunAll] uses it after its first statement *)
Definition effective_opts (opts : Runner.RunOpts) : Runner.RunOpts :=
  if Runner.Timeout opts =? 0 then Runner.withTimeout opts (60 * Runner.Second)
  else opts.

(** the filtered tool list [applicable] of [RunAll] *)
Abbreviation applicable_tools fileInfo opts :=
  (Runner.filterTools (Runner.GetAllTools (effective_opts opts)) fileInfo
     (effective_opts opts)).

(** the events caused by the goroutine of index [idx] *)
Definition events_of (idx : nat) (log : list (nat * Runner.Event))
  : list Runner.Event :=
  (filter (fun e => e.1 = idx) log).*2.

(** a logged subprocess start is under the deadline [d] *)
Definition deadline_is (d : Z) (e : nat * Runner.Event) : Prop :=
  match e.2 with
  | Runner.EvRun _ d' => d' = d
  | _ => True
  end.

(** a slot holds a result, and it is the result of tool [t] *)
Definition populated_by (t : Runner.Tool) (slot : option Output.Result) : Prop :=
  exists r, slot = Some r
            /\ Output.ToolName r = Runner.Name t
            /\ Output.Category r = Runner.Category t.

(** the test that [filterLoop] applies to one tool *)
Definition kept `{Platform} (skipSet onlySet : gmap string bool)
  (fileInfo : Detector.FileInfo) (tool : Runner.Tool) : bool :=
  negb (Runner.has skipSet (Strings.ToLower (Runner.Name tool)))
  && negb ((0 <? size onlySet)%nat
           && negb (Runner.has onlySet (Strings.ToLower (Runner.Name tool))))
  && negb ((0 <? length (Runner.SupportedTypes tool))%nat
           && negb (Runner.supported (Runner.SupportedTypes tool)
                      (Detector.Category fileInfo))).

(** the first four bytes of a PNG file *)
Definition png_magic : list byte := [x89; x50; x4e; x47].

(** the tagged events that the goroutine of index [idx] appends to the log *)
Definition tagged_events `{Platform} (fileInfo : Detector.FileInfo)
  (opts : Runner.RunOpts) (applicable : list Runner.Tool) (idx : nat)
  : list (nat * Runner.Event) :=
  match applicable !! idx with
  | Some t => map (pair idx) (Runner.goroutine fileInfo opts idx t).1
  | None => []
  end.

(** a result is a skip, a failure or a success, and only one of them *)
Definition one_outcome (slot : option Output.Result) : Prop :=
  exists r, slot = Some r
    /\ ((Output.Skipped r = true /\ Output.Error r = None
         /\ Output.Output r = EmptyString /\ Output.Duration r = 0)
        \/ (Output.Skipped r = false /\ is_Some (Output.Error r)
            /\ Output.Output r = EmptyString)
        \/ (Output.Skipped r = false /\ Output.Error r = None)).

(** a slot is printable: a result whose category has a section *)
Definition printable (slot : option Output.Result) : bool :=
  match slot with
  | Some r => existsb (String.eqb (Output.Category r)) Report.categories
  | None => false
  end.

(** the results under all headers, in the order printed *)
Definition shown (results : list (option Output.Result)) : list Output.Result :=
  concat (Report.sections results Report.categories).*2.

(** a slot holds a result that is not a skip for a missing binary *)
Definition not_missing (slot : option Output.Result) : Prop :=
  exists r, slot = Some r
            /\ (Output.Skipped r = false
                \/ Output.SkipReason r = "command not applicable").





(** ** Properties of the file classifier *)

Lemma png_magic_prefix (header : list byte) :
  take 4 header = png_magic ->
  exists rest, header = x89 :: x50 :: x4e :: x47 :: rest.
Proof.
  unfold png_magic.
  destruct header as [|b0 [|b1 [|b2 [|b3 rest]]]]; simpl; try discriminate.
  intros Heq. injection Heq as -> -> -> ->. now exists rest.
Qed.

(** With eight bytes or more in the header, the PNG signature decides the
    category before any other signature and before the extension. *)
Lemma detectCategory_png (mime ext : string) (header : list byte) :
  (8 <= length header)%nat ->
  take 4 header = png_magic ->
  Detector.detectCategory mime ext header = Detector.CategoryPNG.
Proof.
  intros Hlen Hmagic.
  destruct (png_magic_prefix header Hmagic) as [rest ->].
  unfold Detector.detectCategory.
  apply Nat.leb_le in Hlen. rewrite Hlen. reflexivity.
Qed.

(** A header shorter than eight bytes is never looked at: the category is
    that of the extension. *)
Lemma detectCategory_short (mime ext : string) (header : list byte) :
  (length header < 8)%nat ->
  Detector.detectCategory mime ext header = Detector.categoryOfExt ext.
Proof.
  intros Hlen. unfold Detector.detectCategory.
  apply Nat.leb_gt in Hlen. now rewrite Hlen.
Qed.

(** C5, as amended: a file of at least 8 bytes whose first 4 bytes are
    89 50 4E 47 is given category png, whatever its extension and MIME
    type, and [IsImage] holds of its record. *)
Theorem png_magic_classified (mime ext : string) (header : list byte)
    (fileInfo : Detector.FileInfo) :
  (8 <= length header)%nat ->
  take 4 header = png_magic ->
  Detector.Category fileInfo = Detector.detectCategory mime ext header ->
  Detector.Category fileInfo = Detector.CategoryPNG
  /\ Detector.IsImage fileInfo = true.
Proof.
  intros Hlen Hmagic Hcat.
  rewrite (detectCategory_png mime ext header Hlen Hmagic) in Hcat.
  split; [exact Hcat|]. unfold Detector.IsImage. now rewrite Hcat.
Qed.

Lemma png_magic_classified_witness :
  Detector.Category (Sample.file_of Detector.CategoryPNG) = Detector.CategoryPNG
  /\ Detector.IsImage (Sample.file_of Detector.CategoryPNG) = true.
Proof.
  apply (png_magic_classified "text/plain" ".txt"
           [x89; x50; x4e; x47; x0d; x0a; x1a; x0a]).
  - simpl. lia.
  - reflexivity.
  - reflexivity.
Defined.

(** The same through [Detect]: a readable regular file of at least 8
    bytes that starts with the PNG signature is detected as a PNG image,
    whatever its path. *)
Corollary Detect_png `{Platform} (fs : string -> Detector.FsEntry)
    (filePath absPath name : string) (content : list byte) :
  filepath_Abs filePath = Some absPath ->
  fs absPath = Detector.Regular name true content ->
  (8 <= length content)%nat ->
  take 4 content = png_magic ->
  exists fileInfo,
    Detector.Detect fs filePath = inl fileInfo
    /\ Detector.Category fileInfo = Detector.CategoryPNG
    /\ Detector.IsImage fileInfo = true.
Proof.
  intros Habs Hfs Hlen Hmagic.
  unfold Detector.Detect. rewrite Habs, Hfs. simpl.
  destruct content as [|b content']; [simpl in Hlen; lia|].
  eexists; split; [reflexivity|].
  eapply png_magic_classified with (header := take 512 (b :: content')).
  - rewrite length_take. lia.
  - rewrite take_take. exact Hmagic.
  - reflexivity.
Qed.

(** C5, as stated, fails: the four bytes 89 50 4E 47 alone, in a file named
    with a .txt extension, are classified by the extension, as unknown. *)
Lemma png_magic_short_file_unknown :
  take 4 [x89; x50; x4e; x47] = png_magic
  /\ Detector.detectCategory "text/plain" ".txt" [x89; x50; x4e; x47]
     = Detector.CategoryUnknown
  /\ exists fileInfo,
       Detector.Detect (H := Sample.platform) Sample.short_png "/tmp/tiny.txt"
       = inl fileInfo
       /\ Detector.Category fileInfo = Detector.CategoryUnknown
       /\ Detector.IsImage fileInfo = false.
Proof.
  split; [reflexivity|]. split; [reflexivity|].
  eexists. split; [vm_compute; reflexivity|]. split; reflexivity.
Qed.

(** ** Properties of the dispatch filter *)
Section Filter.
Context `{Platform}.

Lemma has_insert (set : gmap string bool) (a key : string) :
  Runner.has (<[a := true]> set) key = true <-> a = key \/ Runner.has set key = true.
Proof.
  unfold Runner.has. destruct (decide (a = key)) as [->|Hne].
  - rewrite lookup_insert_eq. simpl. tauto.
  - rewrite lookup_insert_ne by done. tauto.
Qed.

Lemma has_empty (key : string) : Runner.has ∅ key = false.
Proof. unfold Runner.has. now rewrite lookup_empty. Qed.

Lemma has_foldl (names : list string) (set : gmap string bool) (key : string) :
  Runner.has
    (foldl (fun set s => <[Strings.ToLower s := true]> set) set names) key = true
  <-> Runner.has set key = true
      \/ exists s, s ∈ names /\ Strings.ToLower s = key.
Proof.
  revert set. induction names as [|n names IH]; intros set; simpl.
  - split; [tauto|]. intros [Hs|(s & Hin & _)]; [done|]. by apply elem_of_nil in Hin.
  - rewrite IH, has_insert. split.
    + intros [[Heq|Hs]|(s & Hin & Heq)].
      * right. exists n. split; [left|done].
      * by left.
      * right. exists s. split; [by right|done].
    + intros [Hs|(s & Hin & Heq)].
      * left. by right.
      * apply elem_of_cons in Hin as [->|Hin].
        -- left. by left.
        -- right. by exists s.
Qed.

(** [skipSet] and [onlySet] hold exactly the lower-cased names of the list *)
Lemma has_lowerSet (names : list string) (key : string) :
  Runner.has (Runner.lowerSet names) key = true
  <-> exists s, s ∈ names /\ Strings.ToLower s = key.
Proof.
  unfold Runner.lowerSet. rewrite has_foldl, has_empty.
  split; [intros [Hf|Hex]; [discriminate|exact Hex] | intros Hex; by right].
Qed.

Lemma foldl_insert_nonempty (names : list string) (set : gmap string bool) :
  set <> ∅ ->
  foldl (fun set s => <[Strings.ToLower s := true]> set) set names <> ∅.
Proof.
  revert set. induction names as [|n names IH]; intros set Hne; simpl; [done|].
  apply IH, insert_non_empty.
Qed.

(** [len(onlySet) > 0] says that the list is not empty *)
Lemma size_lowerSet (names : list string) :
  (0 <? size (Runner.lowerSet names))%nat = negb (bool_decide (names = [])).
Proof.
  destruct names as [|n names]; [reflexivity|].
  rewrite bool_decide_eq_false_2 by done. simpl.
  apply Nat.ltb_lt.
  assert (Hne : size (Runner.lowerSet (n :: names)) <> 0%nat).
  { rewrite map_size_empty_iff. unfold Runner.lowerSet. simpl.
    apply foldl_insert_nonempty, insert_non_empty. }
  lia.
Qed.

(** The loop appends, in order, the tools that pass the three tests. *)
Lemma filterLoop_filter (skipSet onlySet : gmap string bool)
    (fileInfo : Detector.FileInfo) (tools filtered : list Runner.Tool) :
  Runner.filterLoop skipSet onlySet fileInfo tools filtered
  = (filtered ++ filter (fun t => kept skipSet onlySet fileInfo t = true) tools)%list.
Proof.
  revert filtered. induction tools as [|tool rest IH]; intros filtered; simpl.
  - by rewrite app_nil_r.
  - rewrite !IH, filter_cons.
    set (passed := filter _ rest). unfold kept.
    destruct (Runner.has skipSet _); simpl; [done|].
    destruct ((0 <? size onlySet)%nat && negb (Runner.has onlySet _)); simpl;
      [done|].
    destruct ((0 <? length (Runner.SupportedTypes tool))%nat && negb _); simpl;
      [done|].
    by rewrite <- app_assoc.
Qed.

Lemma elem_of_filterTools (tools : list Runner.Tool) (fileInfo : Detector.FileInfo)
    (opts : Runner.RunOpts) (t : Runner.Tool) :
  t ∈ Runner.filterTools tools fileInfo opts
  <-> t ∈ tools
      /\ kept (Runner.lowerSet (Runner.Skip opts)) (Runner.lowerSet (Runner.Only opts))
           fileInfo t = true.
Proof.
  unfold Runner.filterTools. rewrite filterLoop_filter. simpl.
  rewrite list_elem_of_filter. tauto.
Qed.

(** The filtered list is a sublist of the registry: registry order. *)
Lemma filterTools_sublist (tools : list Runner.Tool) (fileInfo : Detector.FileInfo)
    (opts : Runner.RunOpts) :
  Runner.filterTools tools fileInfo opts `sublist_of` tools.
Proof.
  unfold Runner.filterTools. rewrite filterLoop_filter. simpl. apply sublist_filter.
Qed.

(** C7: a tool whose lower-cased name is that of an entry of the skip list
    and of an entry of the only list is not in the filtered list. *)
Theorem filterTools_skip_wins (tools : list Runner.Tool)
    (fileInfo : Detector.FileInfo) (opts : Runner.RunOpts)
    (t : Runner.Tool) (s o : string) :
  s ∈ Runner.Skip opts ->
  o ∈ Runner.Only opts ->
  Strings.ToLower s = Strings.ToLower (Runner.Name t) ->
  Strings.ToLower o = Strings.ToLower (Runner.Name t) ->
  t ∉ Runner.filterTools tools fileInfo opts.
Proof.
  intros Hs _ Hls _ Hin.
  apply elem_of_filterTools in Hin as [_ Hkept].
  assert (Hhas : Runner.has (Runner.lowerSet (Runner.Skip opts))
                   (Strings.ToLower (Runner.Name t)) = true).
  { apply has_lowerSet. by exists s. }
  unfold kept in Hkept. rewrite Hhas in Hkept. discriminate.
Qed.

(** C9: a tool of the list whose [SupportedTypes] is empty, which no entry
    of the skip list names and which the only list, if not empty, names, is
    in the filtered list, for every file category and all options. *)
Theorem filterTools_keeps_untyped (tools : list Runner.Tool)
    (fileInfo : Detector.FileInfo) (opts : Runner.RunOpts) (t : Runner.Tool) :
  t ∈ tools ->
  Runner.SupportedTypes t = [] ->
  (forall s, s ∈ Runner.Skip opts ->
             Strings.ToLower s <> Strings.ToLower (Runner.Name t)) ->
  (Runner.Only opts = []
   \/ exists o, o ∈ Runner.Only opts
                /\ Strings.ToLower o = Strings.ToLower (Runner.Name t)) ->
  t ∈ Runner.filterTools tools fileInfo opts.
Proof.
  intros Hin Htypes Hskip Honly.
  apply elem_of_filterTools. split; [exact Hin|].
  unfold kept. rewrite Htypes. simpl. rewrite andb_true_r.
  apply andb_true_iff. split.
  - apply negb_true_iff, not_true_is_false. intros Hhas.
    apply has_lowerSet in Hhas as (s & Hs & Heq). by apply (Hskip s).
  - apply negb_true_iff. rewrite size_lowerSet.
    destruct Honly as [->|Hex]; [reflexivity|].
    apply has_lowerSet in Hex. rewrite Hex. simpl. apply andb_false_r.
Qed.

(** C10, as amended: the registry holds 23 descriptors, and with
    only = [exiftool] and an empty skip list the filtered list for a file of
    any of the eleven recognised categories has exactly one entry, exiftool. *)
Theorem only_exiftool_one_entry (opts : Runner.RunOpts)
    (fileInfo : Detector.FileInfo) :
  Runner.Only opts = ["exiftool"] ->
  Runner.Skip opts = [] ->
  Detector.Category fileInfo <> Detector.CategoryUnknown ->
  length (Runner.GetAllTools opts) = 23%nat
  /\ Runner.Name <$> Runner.filterTools (Runner.GetAllTools opts) fileInfo opts
     = ["exiftool"]
  /\ length (Runner.filterTools (Runner.GetAllTools opts) fileInfo opts) = 1%nat.
Proof.
  destruct opts as [pw vb od sk on d], fileInfo as [p n sz cat mt ext]. simpl.
  intros -> -> Hknown.
  split; [reflexivity|].
  assert (Hnames : Runner.Name <$> Runner.filterTools
            (Runner.GetAllTools (Runner.Build_RunOpts pw vb od [] ["exiftool"] d))
            (Detector.Build_FileInfo p n sz cat mt ext)
            (Runner.Build_RunOpts pw vb od [] ["exiftool"] d) = ["exiftool"]).
  { destruct cat; try (vm_compute; reflexivity). by destruct Hknown. }
  split; [exact Hnames|].
  apply (f_equal length) in Hnames. rewrite length_fmap in Hnames. exact Hnames.
Qed.

End Filter.

Lemma filterTools_skip_wins_witness :
  Sample.exiftool
  ∉ Runner.filterTools (H := Sample.platform)
      (Runner.GetAllTools (H := Sample.platform) Sample.skip_and_only)
      (Sample.file_of Detector.CategoryPNG) Sample.skip_and_only.
Proof.
  apply (filterTools_skip_wins (H := Sample.platform) _ _ _ _ "EXIFTOOL" "ExifTool").
  - simpl. left.
  - simpl. left.
  - reflexivity.
  - reflexivity.
Defined.

Lemma filterTools_keeps_untyped_witness :
  Sample.generic
  ∈ Runner.filterTools (H := Sample.platform)
      (Sample.exiftool :: Sample.generic :: [])
      (Sample.file_of Detector.CategoryUnknown) (Sample.opts_with ["SHA256"] 0).
Proof.
  apply (filterTools_keeps_untyped (H := Sample.platform)).
  - right. left.
  - reflexivity.
  - simpl. intros s Hs. by apply elem_of_nil in Hs.
  - right. exists "SHA256". split; [simpl; left | reflexivity].
Defined.

Lemma only_exiftool_one_entry_witness :
  length (Runner.GetAllTools (H := Sample.platform) (Sample.opts_with ["exiftool"] 0))
  = 23%nat
  /\ Runner.Name <$> Runner.filterTools (H := Sample.platform)
                       (Runner.GetAllTools (H := Sample.platform) (Sample.opts_with ["exiftool"] 0))
                       (Sample.file_of Detector.CategoryWAV)
                       (Sample.opts_with ["exiftool"] 0)
     = ["exiftool"]
  /\ length (Runner.filterTools (H := Sample.platform)
               (Runner.GetAllTools (H := Sample.platform) (Sample.opts_with ["exiftool"] 0))
               (Sample.file_of Detector.CategoryWAV)
               (Sample.opts_with ["exiftool"] 0)) = 1%nat.
Proof.
  apply (only_exiftool_one_entry (H := Sample.platform)).
  - reflexivity.
  - reflexivity.
  - simpl. discriminate.
Defined.

(** C10, as stated, fails: the registry that [RunAll] filters holds 23
    descriptors, not 17. *)
Lemma registry_has_23_descriptors_not_17 :
  length (Runner.GetAllTools (H := Sample.platform) (Sample.opts_with ["exiftool"] 0))
  = 23%nat
  /\ length (Runner.GetAllTools (H := Sample.platform)
               (Sample.opts_with ["exiftool"] 0)) <> 17%nat.
Proof. split; [reflexivity | discriminate]. Qed.

(** The descriptor of exiftool lists the eleven recognised categories, so
    for a file of category unknown the same options leave nothing. *)
Remark only_exiftool_unknown_file :
  Runner.SupportedTypes Sample.exiftool = Runner.allTypes
  /\ (Detector.CategoryUnknown ∉ Runner.allTypes)
  /\ Runner.filterTools (H := Sample.platform)
       (Runner.GetAllTools (H := Sample.platform) (Sample.opts_with ["exiftool"] 0))
       (Sample.file_of Detector.CategoryUnknown)
       (Sample.opts_with ["exiftool"] 0) = [].
Proof.
  split; [reflexivity|]. split; [|reflexivity].
  intros Hin. vm_compute in Hin.
  repeat (apply elem_of_cons in Hin as [Hin|Hin]; [discriminate|]).
  by apply elem_of_nil in Hin.
Qed.

(** ** Properties of the executor *)
Section Executor.
Context `{Platform}.

(** Every builder of the registry returns nil or a command made by
    [exec.Command], whose [Args] is not empty. *)
Lemma registry_builds_args (opts o : Runner.RunOpts) (t : Runner.Tool)
    (fp : string) (cmd : Exec.Cmd) :
  t ∈ Runner.GetAllTools opts ->
  Runner.BuildCmd t fp o = Some cmd ->
  Exec.Args cmd <> [].
Proof.
  intros Hin. unfold Runner.GetAllTools in Hin.
  repeat (apply elem_of_cons in Hin as [->|Hin]);
    try (by apply elem_of_nil in Hin);
    simpl; try (intros [= <-]; discriminate);
    destruct Runner.rockyou_wordlist; intros [= <-]; discriminate.
Qed.

(** A goroutine whose builder returns commands with arguments stores a
    result that carries the name and category of its tool. *)
Lemma goroutine_stores (fileInfo : Detector.FileInfo) (opts : Runner.RunOpts)
    (idx : nat) (t : Runner.Tool) :
  (forall cmd, Runner.BuildCmd t (Detector.Path fileInfo) opts = Some cmd ->
               Exec.Args cmd <> []) ->
  populated_by t (Runner.goroutine fileInfo opts idx t).2.
Proof.
  intros Hargs. unfold populated_by, Runner.goroutine.
  destruct (Deps.IsToolAvailable _); simpl; [|by eexists].
  destruct (Runner.BuildCmd t _ opts) as [cmd|] eqn:Hbuild; [|by eexists].
  destruct (Exec.Args cmd) eqn:Hcmd; [by destruct (Hargs cmd eq_refl)|].
  simpl. destruct (run_process _ _ _) as [o e c d]. simpl.
  eexists. split; [reflexivity|].
  destruct c as [[]|], e; simpl; try done; by destruct (negb _).
Qed.

Lemma finish_Some (fileInfo : Detector.FileInfo) (opts : Runner.RunOpts)
    (idx : nat) (t : Runner.Tool) (b : Runner.Batch) (r : Output.Result) :
  (Runner.goroutine fileInfo opts idx t).2 = Some r ->
  Runner.finish fileInfo opts idx t b
  = Some {| Runner.slots := <[idx := Some r]> (Runner.slots b);
            Runner.log := (Runner.log b
                           ++ map (pair idx) (Runner.goroutine fileInfo opts idx t).1)%list |}.
Proof.
  unfold Runner.finish. destruct (Runner.goroutine _ _ _ _) as [events [r'|]]; simpl.
  - by intros [= ->].
  - discriminate.
Qed.

Lemma events_of_app (idx : nat) (l1 l2 : list (nat * Runner.Event)) :
  events_of idx (l1 ++ l2) = (events_of idx l1 ++ events_of idx l2)%list.
Proof. unfold events_of. by rewrite filter_app, fmap_app. Qed.

Lemma events_of_tagged (idx i : nat) (events : list Runner.Event) :
  events_of idx (map (pair i) events) = if decide (i = idx) then events else [].
Proof.
  unfold events_of. destruct (decide (i = idx)) as [->|Hne].
  - induction events as [|e events IH]; [done|].
    cbn [map]. rewrite filter_cons_True by done. by rewrite fmap_cons, IH.
  - induction events as [|e events IH]; [done|].
    cbn [map]. by rewrite filter_cons_False.
Qed.

Section Batch.
Variable fileInfo : Detector.FileInfo.
Variable opts : Runner.RunOpts.
Variable applicable : list Runner.Tool.
Hypothesis stores : forall idx t,
  applicable !! idx = Some t ->
  is_Some (Runner.goroutine fileInfo opts idx t).2.

(** Whatever the order in which goroutines finish: no panic, the slice
    keeps its length, a slot whose goroutine has run holds what that
    goroutine stores, and the log grows by the events of the goroutines in
    the order of the schedule. *)
Lemma run_goroutines_spec (sched : list nat) (b : Runner.Batch) :
  exists b',
    Runner.run_goroutines fileInfo opts applicable sched b = Some b'
    /\ length (Runner.slots b') = length (Runner.slots b)
    /\ (forall idx t,
          applicable !! idx = Some t ->
          (idx < length (Runner.slots b))%nat ->
          idx ∈ sched
          \/ Runner.slots b !! idx = Some (Runner.goroutine fileInfo opts idx t).2 ->
          Runner.slots b' !! idx = Some (Runner.goroutine fileInfo opts idx t).2)
    /\ Runner.log b'
       = (Runner.log b ++ flat_map (tagged_events fileInfo opts applicable) sched)%list.
Proof.
  revert b. induction sched as [|i sched IH]; intros b; simpl.
  - exists b. repeat split; [|by rewrite app_nil_r].
    intros idx t _ _ [Hin|Hslot]; [by apply elem_of_nil in Hin | exact Hslot].
  - destruct (applicable !! i) as [ti|] eqn:Hi.
    + destruct (stores i ti Hi) as [r Hr].
      rewrite (finish_Some _ _ _ _ _ r Hr).
      match goal with |- context [Runner.run_goroutines _ _ _ _ ?b1] =>
        destruct (IH b1) as (b' & Hrun & Hlen & Hslots & Hlog) end.
      simpl in Hlen, Hslots, Hlog. rewrite length_insert in Hlen, Hslots.
      exists b'. split; [exact Hrun|]. split; [exact Hlen|]. split.
      * intros idx t Ht Hidx Hcase. apply (Hslots idx t Ht Hidx).
        destruct (decide (idx = i)) as [->|Hne].
        -- right. rewrite list_lookup_insert_eq by done.
           rewrite Hi in Ht. injection Ht as <-. by rewrite Hr.
        -- destruct Hcase as [Hin|Hslot].
           ++ left. apply elem_of_cons in Hin as [?|?]; done.
           ++ right. by rewrite list_lookup_insert_ne.
      * rewrite Hlog, <- app_assoc. do 2 f_equal.
        unfold tagged_events. by rewrite Hi.
    + destruct (IH b) as (b' & Hrun & Hlen & Hslots & Hlog).
      exists b'. split; [exact Hrun|]. split; [exact Hlen|]. split;
        [|rewrite Hlog; unfold tagged_events at 2; by rewrite Hi].
      intros idx t Ht Hidx Hcase. apply (Hslots idx t Ht Hidx).
      destruct Hcase as [Hin|Hslot]; [left | by right].
      apply elem_of_cons in Hin as [->|Hin]; [congruence | exact Hin].
Qed.

(** In a schedule without repetition the events tagged [idx] are those of
    the one run of the goroutine [idx]. *)
Lemma events_of_schedule (sched : list nat) (idx : nat) (t : Runner.Tool) :
  NoDup sched ->
  applicable !! idx = Some t ->
  events_of idx (flat_map (tagged_events fileInfo opts applicable) sched)
  = if decide (idx ∈ sched) then (Runner.goroutine fileInfo opts idx t).1 else [].
Proof.
  intros Hnd Ht. induction Hnd as [|i sched Hni Hnd IH]; cbn [flat_map].
  - by rewrite decide_False by apply not_elem_of_nil.
  - rewrite events_of_app, IH. unfold tagged_events at 1.
    destruct (decide (i = idx)) as [->|Hne].
    + rewrite Ht, events_of_tagged, decide_True by done.
      rewrite (decide_False (P := idx ∈ sched)) by done.
      rewrite decide_True by left. by rewrite app_nil_r.
    + assert (Hnone : events_of idx
                (match applicable !! i with
                 | Some t0 => map (pair i) (Runner.goroutine fileInfo opts i t0).1
                 | None => []
                 end) = []).
      { destruct (applicable !! i); [|done].
        by rewrite events_of_tagged, decide_False. }
      rewrite Hnone. simpl.
      destruct (decide (idx ∈ sched)) as [Hin|Hnin].
      * by rewrite decide_True by by right.
      * rewrite decide_False; [done|].
        intros Hc. apply elem_of_cons in Hc as [?|?]; congruence.
Qed.

End Batch.

Lemma applicable_in_registry (fileInfo : Detector.FileInfo) (opts : Runner.RunOpts)
    (idx : nat) (t : Runner.Tool) :
  applicable_tools fileInfo opts !! idx = Some t ->
  t ∈ Runner.GetAllTools (effective_opts opts).
Proof.
  intros Ht.
  assert (Hin : t ∈ applicable_tools fileInfo opts)
    by exact (list_elem_of_lookup_2 _ _ _ Ht).
  exact (proj1 (proj1 (elem_of_filterTools _ _ _ _) Hin)).
Qed.

(** No goroutine of [RunAll] panics: each stores a result of its tool. *)
Lemma applicable_stores (fileInfo : Detector.FileInfo) (opts : Runner.RunOpts)
    (idx : nat) (t : Runner.Tool) :
  applicable_tools fileInfo opts !! idx = Some t ->
  populated_by t (Runner.goroutine fileInfo (effective_opts opts) idx t).2.
Proof.
  intros Ht. apply goroutine_stores. intros cmd.
  apply registry_builds_args with (opts := effective_opts opts).
  by apply applicable_in_registry with fileInfo idx.
Qed.

(** [RunAll] with its local names spelled out *)
Lemma RunAll_unfold (s : Runner.Scheduler) (fileInfo : Detector.FileInfo)
    (opts : Runner.RunOpts) :
  Runner.RunAll s fileInfo opts
  = match Runner.run_goroutines fileInfo (effective_opts opts)
            (applicable_tools fileInfo opts)
            (Runner.order s (seq 0 (length (applicable_tools fileInfo opts))))
            {| Runner.slots := replicate (length (applicable_tools fileInfo opts)) None;
               Runner.log := [] |} with
    | Some b =>
        Some ({| Runner.FileInfo := fileInfo; Runner.Results := Runner.slots b;
                 Runner.Duration := batch_elapsed |}, Runner.log b)
    | None => None
    end.
Proof. reflexivity. Qed.

(** [RunAll] returns for every scheduler.  The slot of index [idx] holds
    what the goroutine of [applicable[idx]] stores, and the log is made of
    the events of the goroutines in the order they finished. *)
Lemma RunAll_spec (s : Runner.Scheduler) (fileInfo : Detector.FileInfo)
    (opts : Runner.RunOpts) :
  exists sr log,
    Runner.RunAll s fileInfo opts = Some (sr, log)
    /\ Runner.FileInfo sr = fileInfo
    /\ length (Runner.Results sr) = length (applicable_tools fileInfo opts)
    /\ log = flat_map
               (tagged_events fileInfo (effective_opts opts)
                  (applicable_tools fileInfo opts))
               (Runner.order s (seq 0 (length (applicable_tools fileInfo opts))))
    /\ forall idx t,
         applicable_tools fileInfo opts !! idx = Some t ->
         Runner.Results sr !! idx
         = Some (Runner.goroutine fileInfo (effective_opts opts) idx t).2
         /\ events_of idx log
            = (Runner.goroutine fileInfo (effective_opts opts) idx t).1.
Proof.
  rewrite RunAll_unfold.
  assert (Hstores : forall idx t, applicable_tools fileInfo opts !! idx = Some t ->
            is_Some (Runner.goroutine fileInfo (effective_opts opts) idx t).2).
  { intros idx t Ht. destruct (applicable_stores _ _ _ _ Ht) as (r & Hr & _).
    by exists r. }
  revert Hstores.
  generalize (applicable_tools fileInfo opts) as applicable.
  generalize (effective_opts opts) as opts'.
  intros opts' applicable Hstores.
  pose proof (Runner.order_perm s (seq 0 (length applicable))) as Hperm.
  revert Hperm. generalize (Runner.order s (seq 0 (length applicable))) as sched.
  intros sched Hperm.
  destruct (run_goroutines_spec fileInfo opts' applicable Hstores
              sched {| Runner.slots := replicate (length applicable) None;
                       Runner.log := [] |})
    as (b' & Hrun & Hlen & Hslots & Hlog).
  cbn [Runner.slots Runner.log app] in Hlen, Hslots, Hlog.
  rewrite length_replicate in Hlen, Hslots.
  rewrite Hrun. eexists _, _. split; [reflexivity|]. cbn [Runner.FileInfo Runner.Results].
  split; [reflexivity|]. split; [exact Hlen|]. split; [exact Hlog|].
  intros idx t Ht.
  assert (Hidx : (idx < length applicable)%nat) by by eapply lookup_lt_Some.
  assert (Hin : idx ∈ sched).
  { rewrite Hperm. apply elem_of_seq. lia. }
  split; [apply (Hslots idx t Ht Hidx); by left|].
  rewrite Hlog, (events_of_schedule _ _ _ _ _ t); [by rewrite decide_True| |exact Ht].
  rewrite Hperm. apply NoDup_seq.
Qed.

(** The subprocesses of a goroutine are started under the deadline
    [opts.Timeout]. *)
Lemma goroutine_deadline (fileInfo : Detector.FileInfo) (opts : Runner.RunOpts)
    (idx i : nat) (t : Runner.Tool) :
  Forall (deadline_is (Runner.Timeout opts))
    (map (pair i) (Runner.goroutine fileInfo opts idx t).1).
Proof.
  unfold Runner.goroutine.
  destruct (negb _); simpl; [by repeat constructor|].
  destruct (Runner.BuildCmd _ _ _) as [cmd|]; [|by repeat constructor].
  destruct (Exec.Args cmd); by repeat constructor.
Qed.

Lemma effective_timeout (opts : Runner.RunOpts) :
  Runner.Timeout (effective_opts opts)
  = if Runner.Timeout opts =? 0 then 60 * Runner.Second else Runner.Timeout opts.
Proof. unfold effective_opts. by destruct (Runner.Timeout opts =? 0). Qed.

(** Every subprocess that [RunAll] starts is under the deadline 60 s when
    [opts.Timeout] is 0 and under [opts.Timeout] itself otherwise. *)
Lemma RunAll_deadlines (s : Runner.Scheduler) (fileInfo : Detector.FileInfo)
    (opts : Runner.RunOpts) :
  exists sr log,
    Runner.RunAll s fileInfo opts = Some (sr, log)
    /\ Forall (deadline_is (if Runner.Timeout opts =? 0 then 60 * Runner.Second
                            else Runner.Timeout opts)) log.
Proof.
  destruct (RunAll_spec s fileInfo opts) as (sr & log & Hrun & _ & _ & Hlog & _).
  exists sr, log. split; [exact Hrun|].
  rewrite <- effective_timeout, Hlog.
  apply Forall_flat_map, Forall_forall. intros i _.
  unfold tagged_events. destruct (_ !! i); [|constructor].
  apply goroutine_deadline.
Qed.

(** What a goroutine does when the binary of its tool is not found. *)
Lemma goroutine_missing (fileInfo : Detector.FileInfo) (opts : Runner.RunOpts)
    (idx : nat) (t : Runner.Tool) :
  Deps.IsToolAvailable (Runner.Binary t) = false ->
  exists r,
    Runner.goroutine fileInfo opts idx t = ([Runner.EvLookPath (Runner.Binary t)], Some r)
    /\ Output.Skipped r = true
    /\ Output.SkipReason r = Runner.Binary t +:+ " not installed"
    /\ Output.Output r = EmptyString
    /\ Output.Error r = None.
Proof.
  intros Hmissing. unfold Runner.goroutine. rewrite Hmissing. simpl.
  eexists. split; [reflexivity|]. by repeat split.
Qed.

(** What a goroutine stores once its subprocess has returned. *)
Lemma goroutine_ran (fileInfo : Detector.FileInfo) (opts : Runner.RunOpts)
    (idx : nat) (t : Runner.Tool) (cmd : Exec.Cmd) :
  Deps.IsToolAvailable (Runner.Binary t) = true ->
  Runner.BuildCmd t (Detector.Path fileInfo) opts = Some cmd ->
  Exec.Args cmd <> [] ->
  let fin := run_process idx (Runner.rebuilt cmd) (Runner.Timeout opts) in
  exists r,
    (Runner.goroutine fileInfo opts idx t).2 = Some r
    /\ Output.Skipped r = false
    /\ match Exec.ctx_Err fin with
       | Some Exec.DeadlineExceeded =>
           Output.Error r
           = Some ("timeout after " +:+ Duration_String (Runner.Timeout opts))
           /\ Output.Output r = EmptyString
       | _ =>
           match Exec.err fin with
           | Some e =>
               if String.eqb (Strings.TrimSpace (Exec.out fin)) EmptyString
               then Output.Error r = Some e /\ Output.Output r = EmptyString
               else Output.Output r = Strings.TrimSpace (Exec.out fin)
                    /\ Output.Error r = None
           | None =>
               Output.Output r = Strings.TrimSpace (Exec.out fin)
               /\ Output.Error r = None
           end
       end.
Proof.
  intros Havail Hbuild Hargs fin. unfold Runner.goroutine.
  rewrite Havail, Hbuild. simpl.
  destruct (Exec.Args cmd) eqn:Hcmd; [done|]. simpl.
  fold fin. destruct fin as [o e c d]. simpl.
  eexists. split; [reflexivity|].
  destruct c as [[]|], e; simpl; try done;
    by destruct (String.eqb _ _).
Qed.

(** C1: [RunAll] returns; the result collection is as long as the filtered
    tool list, and each of its slots holds a result, that of the tool at
    the same index, in whatever order the goroutines finished. *)
Theorem RunAll_results_populated (s : Runner.Scheduler)
    (fileInfo : Detector.FileInfo) (opts : Runner.RunOpts) :
  exists sr log,
    Runner.RunAll s fileInfo opts = Some (sr, log)
    /\ length (Runner.Results sr) = length (applicable_tools fileInfo opts)
    /\ Forall2 populated_by (applicable_tools fileInfo opts) (Runner.Results sr).
Proof.
  destruct (RunAll_spec s fileInfo opts) as (sr & log & Hrun & _ & Hlen & _ & Hslots).
  exists sr, log. split; [exact Hrun|]. split; [exact Hlen|].
  apply Forall2_same_length_lookup_2; [by rewrite Hlen|].
  intros idx t slot Ht Hslot.
  destruct (Hslots idx t Ht) as [Hres _]. rewrite Hres in Hslot.
  injection Hslot as <-. by apply applicable_stores.
Qed.

(** The order in which the goroutines finish does not show in the result
    collection. *)
Lemma RunAll_order_irrelevant (s1 s2 : Runner.Scheduler)
    (fileInfo : Detector.FileInfo) (opts : Runner.RunOpts)
    (sr1 sr2 : Runner.ScanResult) (log1 log2 : list (nat * Runner.Event)) :
  Runner.RunAll s1 fileInfo opts = Some (sr1, log1) ->
  Runner.RunAll s2 fileInfo opts = Some (sr2, log2) ->
  Runner.Results sr1 = Runner.Results sr2.
Proof.
  intros H1 H2.
  destruct (RunAll_spec s1 fileInfo opts) as (? & ? & Hr1 & _ & Hl1 & _ & Hs1).
  destruct (RunAll_spec s2 fileInfo opts) as (? & ? & Hr2 & _ & Hl2 & _ & Hs2).
  rewrite Hr1 in H1. rewrite Hr2 in H2.
  injection H1 as -> ->. injection H2 as -> ->.
  apply (list_eq_same_length _ _ _ Hl2 Hl1).
  intros i x y Hi Hx Hy.
  destruct (lookup_lt_is_Some_2 _ i Hi) as [t Ht].
  rewrite (proj1 (Hs1 i t Ht)) in Hx. rewrite (proj1 (Hs2 i t Ht)) in Hy.
  congruence.
Qed.

(** C2: a tool whose subprocess returns an error while the deadline has not
    expired has, in its slot, a result that is not skipped and that is a
    success carrying the trimmed output when this is not empty, and a
    failure carrying the process error when it is. *)
Theorem nonzero_exit_with_output_succeeds (s : Runner.Scheduler)
    (fileInfo : Detector.FileInfo) (opts : Runner.RunOpts)
    (idx : nat) (t : Runner.Tool) (cmd : Exec.Cmd) (fin : Exec.Finished)
    (e : string) :
  applicable_tools fileInfo opts !! idx = Some t ->
  Deps.IsToolAvailable (Runner.Binary t) = true ->
  Runner.BuildCmd t (Detector.Path fileInfo) (effective_opts opts) = Some cmd ->
  fin = run_process idx (Runner.rebuilt cmd) (Runner.Timeout (effective_opts opts)) ->
  Exec.ctx_Err fin <> Some Exec.DeadlineExceeded ->
  Exec.err fin = Some e ->
  exists sr log r,
    Runner.RunAll s fileInfo opts = Some (sr, log)
    /\ Runner.Results sr !! idx = Some (Some r)
    /\ Output.Skipped r = false
    /\ if String.eqb (Strings.TrimSpace (Exec.out fin)) EmptyString
       then Output.Error r = Some e /\ Output.Output r = EmptyString
       else Output.Output r = Strings.TrimSpace (Exec.out fin)
            /\ Output.Error r = None.
Proof.
  intros Ht Havail Hbuild -> Hctx Herr.
  destruct (RunAll_spec s fileInfo opts) as (sr & log & Hrun & _ & _ & _ & Hslots).
  destruct (Hslots idx t Ht) as [Hres _].
  assert (Hargs : Exec.Args cmd <> []).
  { apply (registry_builds_args (effective_opts opts) _ t _ _
             (applicable_in_registry _ _ _ _ Ht) Hbuild). }
  destruct (goroutine_ran _ _ idx t cmd Havail Hbuild Hargs) as (r & Hr & Hskip & Hout).
  exists sr, log, r. split; [exact Hrun|]. split; [by rewrite Hres, Hr|].
  split; [exact Hskip|].
  rewrite Herr in Hout.
  destruct (Exec.ctx_Err _) as [[]|]; [exact Hout|done|exact Hout].
Qed.

(** C3, as amended: every subprocess that [RunAll] starts is under the
    deadline 60 s when [opts.Timeout] is 0 (unset), and under
    [opts.Timeout] itself when it is anything else, negative or positive. *)
Theorem RunAll_default_timeout (s : Runner.Scheduler)
    (fileInfo : Detector.FileInfo) (opts : Runner.RunOpts) :
  exists sr log,
    Runner.RunAll s fileInfo opts = Some (sr, log)
    /\ Forall (deadline_is (if Runner.Timeout opts =? 0 then 60 * Runner.Second
                            else Runner.Timeout opts)) log.
Proof. apply RunAll_deadlines. Qed.

(** C4: with a positive --timeout flag the scan command hands [RunAll] the
    zero timeout, and every subprocess is started under the deadline 60 s:
    the configured number of seconds is not used. *)
Theorem scan_timeout_flag_ignored (s : Runner.Scheduler)
    (fileInfo : Detector.FileInfo) (f : RootCmd.Flags) :
  0 < RootCmd.timeout f ->
  Runner.Timeout (RootCmd.scanOpts f) = 0
  /\ exists sr log,
       Runner.RunAll s fileInfo (RootCmd.scanOpts f) = Some (sr, log)
       /\ Forall (deadline_is (60 * Runner.Second)) log.
Proof.
  intros Hpos.
  assert (Hzero : Runner.Timeout (RootCmd.scanOpts f) = 0).
  { unfold RootCmd.scanOpts. apply Z.ltb_lt in Hpos. by rewrite Hpos. }
  split; [exact Hzero|].
  destruct (RunAll_deadlines s fileInfo (RootCmd.scanOpts f)) as (sr & log & Hrun & Hd).
  exists sr, log. split; [exact Hrun|]. by rewrite Hzero in Hd.
Qed.

(** C6: a tool whose subprocess is still running when its deadline expires
    has, in its slot, a failure whose message names the timeout in use, with
    no output and no skip mark. *)
Theorem timeout_is_failure (s : Runner.Scheduler)
    (fileInfo : Detector.FileInfo) (opts : Runner.RunOpts)
    (idx : nat) (t : Runner.Tool) (cmd : Exec.Cmd) :
  applicable_tools fileInfo opts !! idx = Some t ->
  Deps.IsToolAvailable (Runner.Binary t) = true ->
  Runner.BuildCmd t (Detector.Path fileInfo) (effective_opts opts) = Some cmd ->
  Exec.ctx_Err (run_process idx (Runner.rebuilt cmd)
                  (Runner.Timeout (effective_opts opts)))
  = Some Exec.DeadlineExceeded ->
  exists sr log r,
    Runner.RunAll s fileInfo opts = Some (sr, log)
    /\ Runner.Results sr !! idx = Some (Some r)
    /\ Output.Error r
       = Some ("timeout after "
               +:+ Duration_String (Runner.Timeout (effective_opts opts)))
    /\ Output.Output r = EmptyString
    /\ Output.Skipped r = false.
Proof.
  intros Ht Havail Hbuild Hctx.
  destruct (RunAll_spec s fileInfo opts) as (sr & log & Hrun & _ & _ & _ & Hslots).
  destruct (Hslots idx t Ht) as [Hres _].
  assert (Hargs : Exec.Args cmd <> []).
  { apply (registry_builds_args (effective_opts opts) _ t _ _
             (applicable_in_registry _ _ _ _ Ht) Hbuild). }
  destruct (goroutine_ran _ _ idx t cmd Havail Hbuild Hargs) as (r & Hr & Hskip & Hout).
  rewrite Hctx in Hout. destruct Hout as [Herr Hempty].
  exists sr, log, r. split; [exact Hrun|]. split; [by rewrite Hres, Hr|].
  by repeat split.
Qed.

(** C8: a tool whose binary is not on the search path has, in its slot, a
    skipped result whose reason is the binary name followed by
    " not installed"; the only event of its goroutine is the lookup, so its
    builder is not called and no subprocess is started for it. *)
Theorem missing_binary_skipped (s : Runner.Scheduler)
    (fileInfo : Detector.FileInfo) (opts : Runner.RunOpts)
    (idx : nat) (t : Runner.Tool) :
  applicable_tools fileInfo opts !! idx = Some t ->
  Deps.IsToolAvailable (Runner.Binary t) = false ->
  exists sr log r,
    Runner.RunAll s fileInfo opts = Some (sr, log)
    /\ Runner.Results sr !! idx = Some (Some r)
    /\ Output.Skipped r = true
    /\ Output.SkipReason r = Runner.Binary t +:+ " not installed"
    /\ Output.Output r = EmptyString
    /\ Output.Error r = None
    /\ events_of idx log = [Runner.EvLookPath (Runner.Binary t)].
Proof.
  intros Ht Hmissing.
  destruct (RunAll_spec s fileInfo opts) as (sr & log & Hrun & _ & _ & _ & Hslots).
  destruct (Hslots idx t Ht) as [Hres Hevents].
  destruct (goroutine_missing fileInfo (effective_opts opts) idx t Hmissing)
    as (r & Hr & Hskip & Hreason & Hout & Herr).
  rewrite Hr in Hres, Hevents. simpl in Hres, Hevents.
  exists sr, log, r. by repeat split.
Qed.

End Executor.

(** ** The properties on the sample platform *)

Example ToLower_ascii :
  Strings.ToLower (H := Sample.platform) "ExifTool-2.Z" = "exiftool-2.z".
Proof. reflexivity. Qed.

Example TrimSpace_ascii :
  Strings.TrimSpace (H := Sample.platform) ("  a b " +:+ Sample.nl) = "a b".
Proof. reflexivity. Qed.

Example filepath_Ext_last_element :
  Detector.filepath_Ext "/tmp/a.b/secret.tar.GZ" = ".GZ"
  /\ Detector.filepath_Ext "/tmp/a.b/secret" = EmptyString.
Proof. split; reflexivity. Qed.

(** With the timeout unset, the subprocess of exiftool is started under
    the deadline 60 s, and the batch for a PNG file has 14 slots. *)
Example default_timeout_in_use :
  exists sr log,
    Runner.RunAll (H := Sample.platform) Sample.in_order
      (Sample.file_of Detector.CategoryPNG) (Sample.opts_with [] 0) = Some (sr, log)
    /\ length (Runner.Results sr) = 14%nat
    /\ (1%nat, Runner.EvRun Sample.exiftool_cmd (60 * Runner.Second)) ∈ log.
Proof.
  eexists _, _. split; [vm_compute; reflexivity|]. split; [reflexivity|].
  do 5 right. left.
Qed.

Lemma nonzero_exit_with_output_succeeds_witness :
  exists sr log r,
    Runner.RunAll (H := Sample.platform) Sample.in_order
      (Sample.file_of Detector.CategoryPNG) (Sample.opts_with [] 0) = Some (sr, log)
    /\ Runner.Results sr !! 3%nat = Some (Some r)
    /\ Output.Skipped r = false
    /\ Output.Output r = "flag{hidden_in_plain_sight}"
    /\ Output.Error r = None.
Proof.
  destruct (nonzero_exit_with_output_succeeds (H := Sample.platform)
              Sample.in_order (Sample.file_of Detector.CategoryPNG)
              (Sample.opts_with [] 0) 3 (Sample.png_tool 3) Sample.strings_cmd
              Sample.strings_finished "exit status 1")
    as (sr & log & r & Hrun & Hslot & Hskip & Hout).
  - vm_compute. reflexivity.
  - vm_compute. reflexivity.
  - vm_compute. reflexivity.
  - vm_compute. reflexivity.
  - vm_compute. discriminate.
  - vm_compute. reflexivity.
  - vm_compute in Hout. destruct Hout as [Hout Herr].
    exists sr, log, r. by repeat split.
Defined.

(** C3, as stated, fails: a negative timeout is not replaced by the
    default; the subprocess of exiftool is started under the deadline -1 ns. *)
Lemma negative_timeout_not_defaulted :
  Runner.Timeout (Sample.opts_with ["exiftool"] (-1)) <= 0
  /\ exists sr log,
       Runner.RunAll (H := Sample.platform) Sample.in_order
         (Sample.file_of Detector.CategoryPNG) (Sample.opts_with ["exiftool"] (-1))
       = Some (sr, log)
       /\ (0%nat, Runner.EvRun Sample.exiftool_cmd (-1)) ∈ log
       /\ ~ Forall (deadline_is (60 * Runner.Second)) log.
Proof.
  split; [simpl; lia|].
  eexists _, _. split; [vm_compute; reflexivity|].
  split; [do 2 right; left|].
  intros Hall.
  apply Forall_cons in Hall as [_ Hall].
  apply Forall_cons in Hall as [_ Hall].
  apply Forall_cons in Hall as [Hrun _].
  vm_compute in Hrun. discriminate.
Qed.

Lemma scan_timeout_flag_ignored_witness :
  Runner.Timeout (RootCmd.scanOpts Sample.flags_timeout_5) = 0
  /\ exists sr log,
       Runner.RunAll (H := Sample.platform) Sample.reversed
         (Sample.file_of Detector.CategoryPNG)
         (RootCmd.scanOpts Sample.flags_timeout_5) = Some (sr, log)
       /\ Forall (deadline_is (60 * Runner.Second)) log.
Proof.
  apply (scan_timeout_flag_ignored (H := Sample.platform) Sample.reversed
           (Sample.file_of Detector.CategoryPNG) Sample.flags_timeout_5).
  simpl. lia.
Defined.

Lemma timeout_is_failure_witness :
  exists sr log r,
    Runner.RunAll (H := Sample.platform) Sample.reversed
      (Sample.file_of Detector.CategoryPNG) (Sample.opts_with [] 0) = Some (sr, log)
    /\ Runner.Results sr !! 1%nat = Some (Some r)
    /\ Output.Error r = Some "timeout after 1m0s"
    /\ Output.Output r = EmptyString
    /\ Output.Skipped r = false.
Proof.
  destruct (timeout_is_failure (H := Sample.platform)
              Sample.reversed (Sample.file_of Detector.CategoryPNG)
              (Sample.opts_with [] 0) 1 (Sample.png_tool 1) Sample.exiftool_cmd)
    as (sr & log & r & Hrun & Hslot & Herr & Hout & Hskip).
  - vm_compute. reflexivity.
  - vm_compute. reflexivity.
  - vm_compute. reflexivity.
  - vm_compute. reflexivity.
  - vm_compute in Herr. exists sr, log, r. by repeat split.
Defined.

Lemma missing_binary_skipped_witness :
  exists sr log r,
    Runner.RunAll (H := Sample.platform) Sample.reversed
      (Sample.file_of Detector.CategoryPNG) (Sample.opts_with [] 0) = Some (sr, log)
    /\ Runner.Results sr !! 2%nat = Some (Some r)
    /\ Output.Skipped r = true
    /\ Output.SkipReason r = "binwalk not installed"
    /\ events_of 2 log = [Runner.EvLookPath "binwalk"].
Proof.
  destruct (missing_binary_skipped (H := Sample.platform)
              Sample.reversed (Sample.file_of Detector.CategoryPNG)
              (Sample.opts_with [] 0) 2 (Sample.png_tool 2))
    as (sr & log & r & Hrun & Hslot & Hskip & Hreason & _ & _ & Hevents).
  - vm_compute. reflexivity.
  - vm_compute. reflexivity.
  - vm_compute in Hreason, Hevents. exists sr, log, r. by repeat split.
Defined.

(** ** Further properties of the file classifier *)

Lemma nth_take_lt (header : list byte) (n i : nat) :
  (i < n)%nat -> nth i (take n header) x00 = nth i header x00.
Proof. intros Hi. by rewrite !nth_lookup, lookup_take_lt. Qed.

Lemma leb_length_take (header : list byte) (k n : nat) :
  (k <= n)%nat -> (k <=? length (take n header))%nat = (k <=? length header)%nat.
Proof.
  intros Hk. rewrite length_take.
  destruct (Nat.leb_spec k (length header)).
  - apply Nat.leb_le. lia.
  - apply Nat.leb_gt. lia.
Qed.

Lemma detectCategory_take_12 (mime ext : string) (header : list byte) :
  Detector.detectCategory mime ext header
  = Detector.detectCategory mime ext (take 12 header).
Proof.
  unfold Detector.detectCategory, Detector.byte_is.
  rewrite !nth_take_lt by lia.
  by rewrite !leb_length_take by lia.
Qed.

(** The category is decided by the first 12 bytes of the header and by the
    extension: no byte from index 12 on is looked at. *)
Theorem detectCategory_first_12_bytes (mime ext : string) (header : list byte) :
  Detector.detectCategory mime ext header
  = Detector.detectCategory mime ext (take 12 header).
Proof. apply detectCategory_take_12. Qed.

(** The extension is a fallback only: either the category is the same for
    every extension, or it is the category of the extension. *)
Theorem detectCategory_extension_is_fallback (mime ext1 ext2 : string)
    (header : list byte) :
  Detector.detectCategory mime ext1 header = Detector.detectCategory mime ext2 header
  \/ (Detector.detectCategory mime ext1 header = Detector.categoryOfExt ext1
      /\ Detector.detectCategory mime ext2 header = Detector.categoryOfExt ext2).
Proof.
  unfold Detector.detectCategory.
  generalize (Detector.categoryOfExt ext1) (Detector.categoryOfExt ext2).
  intros c1 c2.
  repeat match goal with
         | |- context [if ?c then _ else _] => destruct c
         end; auto.
Qed.

(** A RIFF header of at least 12 bytes is a WAV file when bytes 8-11 are
    WAVE and a WEBP file when they are WEBP, whatever the extension, the
    four size bytes and the bytes that follow. *)
Theorem riff_magic_classified (mime ext : string) (s0 s1 s2 s3 : byte)
    (rest : list byte) :
  Detector.detectCategory mime ext
    (x52 :: x49 :: x46 :: x46 :: s0 :: s1 :: s2 :: s3
     :: x57 :: x41 :: x56 :: x45 :: rest) = Detector.CategoryWAV
  /\ Detector.detectCategory mime ext
       (x52 :: x49 :: x46 :: x46 :: s0 :: s1 :: s2 :: s3
        :: x57 :: x45 :: x42 :: x50 :: rest) = Detector.CategoryWEBP.
Proof. split; reflexivity. Qed.

(** A header of at least 8 bytes that starts with FF and a byte whose three
    top bits are set (an MPEG frame sync) is an MP3 file, whatever the
    extension: no earlier signature can match it. *)
Theorem mp3_frame_sync_classified (mime ext : string) (b1 : byte)
    (rest : list byte) :
  (6 <= length rest)%nat ->
  N.land (Byte.to_N b1) 224 = 224%N ->
  Detector.detectCategory mime ext (xff :: b1 :: rest) = Detector.CategoryMP3.
Proof.
  intros Hlen Hsync. unfold Detector.detectCategory.
  assert (H8 : (8 <=? length (xff :: b1 :: rest))%nat = true)
    by (apply Nat.leb_le; simpl; lia).
  rewrite H8. clear H8 Hlen.
  assert (Hjpeg : Byte.eqb b1 xd8 = false).
  { destruct (Byte.eqb b1 xd8) eqn:Heq; [|done].
    apply Byte.byte_dec_bl in Heq. subst b1. vm_compute in Hsync. discriminate. }
  unfold Detector.byte_is. simpl nth.
  rewrite Hjpeg. apply N.eqb_eq in Hsync. rewrite Hsync. reflexivity.
Qed.

Lemma mp3_frame_sync_classified_witness :
  Detector.detectCategory "text/plain" ".txt"
    (xff :: xfe :: [x68; x00; x69; x00; x0a; x00]) = Detector.CategoryMP3.
Proof.
  apply (mp3_frame_sync_classified "text/plain" ".txt" xfe
           [x68; x00; x69; x00; x0a; x00]).
  - simpl. lia.
  - reflexivity.
Defined.

(** A header shorter than 8 bytes is classified by the extension alone,
    whatever its bytes. *)
Theorem short_header_classified_by_extension (mime ext : string)
    (header : list byte) :
  (length header < 8)%nat ->
  Detector.detectCategory mime ext header = Detector.categoryOfExt ext.
Proof. apply detectCategory_short. Qed.

Lemma short_header_classified_by_extension_witness :
  Detector.detectCategory "image/jpeg" ".wav" [xff; xd8; xff; xe0; x00; x10; x4a]
  = Detector.categoryOfExt ".wav".
Proof.
  apply (short_header_classified_by_extension "image/jpeg" ".wav"
           [xff; xd8; xff; xe0; x00; x10; x4a]).
  simpl. lia.
Defined.


(** ** Further properties of the dispatch filter and of the executor *)
Section MoreRunner.
Context `{Platform}.

Lemma supported_elem_of (types : list Detector.FileCategory)
    (category : Detector.FileCategory) :
  Runner.supported types category = true <-> category ∈ types.
Proof.
  induction types as [|st types IH]; simpl.
  - split; [discriminate|]. intros Hin. by apply elem_of_nil in Hin.
  - rewrite elem_of_cons, <- IH. case_bool_decide; subst; intuition congruence.
Qed.

Lemma elem_of_filterTools_lists (tools : list Runner.Tool)
    (fileInfo : Detector.FileInfo) (opts : Runner.RunOpts) (t : Runner.Tool) :
  t ∈ Runner.filterTools tools fileInfo opts
  <-> t ∈ tools
      /\ (forall s, s ∈ Runner.Skip opts ->
                    Strings.ToLower s <> Strings.ToLower (Runner.Name t))
      /\ (Runner.Only opts = []
          \/ exists o, o ∈ Runner.Only opts
                       /\ Strings.ToLower o = Strings.ToLower (Runner.Name t))
      /\ (Runner.SupportedTypes t = []
          \/ Detector.Category fileInfo ∈ Runner.SupportedTypes t).
Proof.
  rewrite elem_of_filterTools. unfold kept.
  rewrite !andb_true_iff, !negb_true_iff, !andb_false_iff, !negb_false_iff.
  rewrite size_lowerSet, supported_elem_of, negb_false_iff, bool_decide_eq_true.
  rewrite <- not_true_iff_false, !has_lowerSet.
  assert (Hlen : (0 <? length (Runner.SupportedTypes t))%nat = false
                 <-> Runner.SupportedTypes t = []).
  { destruct (Runner.SupportedTypes t); simpl; split; done. }
  rewrite Hlen. split.
  - intros (Hin & (Hskip & Honly) & Htypes). repeat split; try done.
    intros s Hs Heq. apply Hskip. by exists s.
  - intros (Hin & Hskip & Honly & Htypes). repeat split; try done.
    intros (s & Hs & Heq). by apply (Hskip s).
Qed.

(** The filtered list holds exactly the tools of the list that no entry of
    the skip list names, that the only list names if it is not empty, and
    that declare no category or the category of the file (names compared
    after lower-casing). *)
Theorem filterTools_characterised (tools : list Runner.Tool)
    (fileInfo : Detector.FileInfo) (opts : Runner.RunOpts) (t : Runner.Tool) :
  t ∈ Runner.filterTools tools fileInfo opts
  <-> t ∈ tools
      /\ (forall s, s ∈ Runner.Skip opts ->
                    Strings.ToLower s <> Strings.ToLower (Runner.Name t))
      /\ (Runner.Only opts = []
          \/ exists o, o ∈ Runner.Only opts
                       /\ Strings.ToLower o = Strings.ToLower (Runner.Name t))
      /\ (Runner.SupportedTypes t = []
          \/ Detector.Category fileInfo ∈ Runner.SupportedTypes t).
Proof. apply elem_of_filterTools_lists. Qed.

(** The filtered list keeps the order of the tool list: it is the tool
    list with some tools left out. *)
Theorem filterTools_keeps_order (tools : list Runner.Tool)
    (fileInfo : Detector.FileInfo) (opts : Runner.RunOpts) :
  Runner.filterTools tools fileInfo opts `sublist_of` tools.
Proof. apply filterTools_sublist. Qed.

(** Every tool of the registry declares categories, and none declares the
    category unknown. *)
Lemma registry_types_known (opts : Runner.RunOpts) (t : Runner.Tool) :
  t ∈ Runner.GetAllTools opts ->
  Runner.SupportedTypes t <> []
  /\ Detector.CategoryUnknown ∉ Runner.SupportedTypes t.
Proof.
  intros Hin.
  assert (Hall : forallb
            (fun t => (0 <? length (Runner.SupportedTypes t))%nat
                      && negb (Runner.supported (Runner.SupportedTypes t)
                                 Detector.CategoryUnknown))
            (Runner.GetAllTools opts) = true) by reflexivity.
  rewrite forallb_forall in Hall.
  specialize (Hall t (proj1 (list_elem_of_In _ _) Hin)).
  apply andb_true_iff in Hall as [Hlen Hsup].
  apply negb_true_iff in Hsup. split.
  - intros Hnil. rewrite Hnil in Hlen. discriminate.
  - rewrite <- supported_elem_of. by rewrite Hsup.
Qed.

Lemma unknown_file_not_applicable (fileInfo : Detector.FileInfo)
    (opts : Runner.RunOpts) :
  Detector.Category fileInfo = Detector.CategoryUnknown ->
  Runner.filterTools (Runner.GetAllTools opts) fileInfo opts = [].
Proof.
  intros Hunknown. apply elem_of_nil_inv. intros t Hin.
  apply elem_of_filterTools_lists in Hin as (Hreg & _ & _ & Htypes).
  destruct (registry_types_known opts t Hreg) as [Hne Hnot].
  rewrite Hunknown in Htypes. by destruct Htypes.
Qed.

(** For a file of category unknown no tool of the registry is applicable:
    [RunAll] returns an empty result collection and starts nothing,
    whatever the options. *)
Theorem unknown_file_runs_nothing (s : Runner.Scheduler)
    (fileInfo : Detector.FileInfo) (opts : Runner.RunOpts) :
  Detector.Category fileInfo = Detector.CategoryUnknown ->
  Runner.RunAll s fileInfo opts
  = Some ({| Runner.FileInfo := fileInfo; Runner.Results := [];
             Runner.Duration := batch_elapsed |}, []).
Proof.
  intros Hunknown. rewrite RunAll_unfold.
  rewrite (unknown_file_not_applicable fileInfo (effective_opts opts) Hunknown).
  simpl.
  assert (Hsched : Runner.order s [] = []).
  { apply Permutation_nil_r. apply Runner.order_perm. }
  by rewrite Hsched.
Qed.

(** A goroutine causes the lookup, then at most the call of the builder,
    then at most the start of one subprocess, that of the rebuilt command
    under [opts.Timeout]. *)
Lemma goroutine_events (fileInfo : Detector.FileInfo) (opts : Runner.RunOpts)
    (idx : nat) (t : Runner.Tool) :
  let lookup := Runner.EvLookPath (Runner.Binary t) in
  let build := Runner.EvBuildCmd (Runner.Name t) (Detector.Path fileInfo) in
  (Runner.goroutine fileInfo opts idx t).1 = [lookup]
  \/ (Runner.goroutine fileInfo opts idx t).1 = [lookup; build]
  \/ exists cmd,
       Runner.BuildCmd t (Detector.Path fileInfo) opts = Some cmd
       /\ (Runner.goroutine fileInfo opts idx t).1
          = [lookup; build; Runner.EvRun (Runner.rebuilt cmd) (Runner.Timeout opts)].
Proof.
  unfold Runner.goroutine.
  destruct (negb _); simpl; [by left|].
  destruct (Runner.BuildCmd _ _ _) as [cmd|]; [|right; by left].
  destruct (Exec.Args cmd); simpl; [right; by left|].
  right. right. by exists cmd.
Qed.

Lemma events_of_no_goroutine (fileInfo : Detector.FileInfo) (opts : Runner.RunOpts)
    (applicable : list Runner.Tool) (sched : list nat) (idx : nat) :
  applicable !! idx = None ->
  events_of idx (flat_map (tagged_events fileInfo opts applicable) sched) = [].
Proof.
  intros Hnone. induction sched as [|i sched IH]; [done|].
  cbn [flat_map]. rewrite events_of_app, IH, app_nil_r.
  unfold tagged_events. destruct (decide (i = idx)) as [->|Hne].
  - by rewrite Hnone.
  - destruct (applicable !! i); [|done]. by rewrite events_of_tagged, decide_False.
Qed.

(** In a run of [RunAll], for every index of the filtered list the events
    are the lookup of the binary, then possibly the call of the builder,
    then possibly the start of one subprocess: never two subprocesses for a
    tool, none before the lookup and the builder; and there are no events
    under any other index. *)
Theorem one_subprocess_per_tool (s : Runner.Scheduler)
    (fileInfo : Detector.FileInfo) (opts : Runner.RunOpts) :
  exists sr log,
    Runner.RunAll s fileInfo opts = Some (sr, log)
    /\ forall idx,
         match applicable_tools fileInfo opts !! idx with
         | Some t =>
             let lookup := Runner.EvLookPath (Runner.Binary t) in
             let build := Runner.EvBuildCmd (Runner.Name t) (Detector.Path fileInfo) in
             events_of idx log = [lookup]
             \/ events_of idx log = [lookup; build]
             \/ exists cmd,
                  Runner.BuildCmd t (Detector.Path fileInfo) (effective_opts opts)
                  = Some cmd
                  /\ events_of idx log
                     = [lookup; build;
                        Runner.EvRun (Runner.rebuilt cmd)
                          (Runner.Timeout (effective_opts opts))]
         | None => events_of idx log = []
         end.
Proof.
  destruct (RunAll_spec s fileInfo opts) as (sr & log & Hrun & _ & _ & Hlog & Hslots).
  exists sr, log. split; [exact Hrun|]. intros idx.
  destruct (_ !! idx) as [t|] eqn:Ht.
  - destruct (Hslots idx t Ht) as [_ ->]. apply goroutine_events.
  - rewrite Hlog. by apply events_of_no_goroutine.
Qed.

(** What a goroutine does when the builder of its tool returns nil. *)
Lemma goroutine_not_applicable (fileInfo : Detector.FileInfo) (opts : Runner.RunOpts)
    (idx : nat) (t : Runner.Tool) :
  Deps.IsToolAvailable (Runner.Binary t) = true ->
  Runner.BuildCmd t (Detector.Path fileInfo) opts = None ->
  exists r,
    Runner.goroutine fileInfo opts idx t
    = ([Runner.EvLookPath (Runner.Binary t);
        Runner.EvBuildCmd (Runner.Name t) (Detector.Path fileInfo)], Some r)
    /\ Output.Skipped r = true
    /\ Output.SkipReason r = "command not applicable"
    /\ Output.Output r = EmptyString
    /\ Output.Error r = None.
Proof.
  intros Havail Hbuild. unfold Runner.goroutine. rewrite Havail, Hbuild. simpl.
  eexists. split; [reflexivity|]. by repeat split.
Qed.

(** A tool whose binary is found but whose builder returns nil has, in its
    slot, a skipped result with reason "command not applicable"; its
    goroutine starts no subprocess. *)
Theorem nil_command_skipped (s : Runner.Scheduler)
    (fileInfo : Detector.FileInfo) (opts : Runner.RunOpts)
    (idx : nat) (t : Runner.Tool) :
  applicable_tools fileInfo opts !! idx = Some t ->
  Deps.IsToolAvailable (Runner.Binary t) = true ->
  Runner.BuildCmd t (Detector.Path fileInfo) (effective_opts opts) = None ->
  exists sr log r,
    Runner.RunAll s fileInfo opts = Some (sr, log)
    /\ Runner.Results sr !! idx = Some (Some r)
    /\ Output.Skipped r = true
    /\ Output.SkipReason r = "command not applicable"
    /\ Output.Output r = EmptyString
    /\ Output.Error r = None
    /\ events_of idx log
       = [Runner.EvLookPath (Runner.Binary t);
          Runner.EvBuildCmd (Runner.Name t) (Detector.Path fileInfo)].
Proof.
  intros Ht Havail Hbuild.
  destruct (RunAll_spec s fileInfo opts) as (sr & log & Hrun & _ & _ & _ & Hslots).
  destruct (Hslots idx t Ht) as [Hres Hevents].
  destruct (goroutine_not_applicable fileInfo (effective_opts opts) idx t
              Havail Hbuild) as (r & Hr & Hskip & Hreason & Hout & Herr).
  rewrite Hr in Hres, Hevents. simpl in Hres, Hevents.
  exists sr, log, r. by repeat split.
Qed.

(** A tool whose subprocess returns without error before the deadline has,
    in its slot, a success carrying the trimmed output, which may be
    empty, and the elapsed time of the subprocess. *)
Theorem zero_exit_succeeds (s : Runner.Scheduler)
    (fileInfo : Detector.FileInfo) (opts : Runner.RunOpts)
    (idx : nat) (t : Runner.Tool) (cmd : Exec.Cmd) (fin : Exec.Finished) :
  applicable_tools fileInfo opts !! idx = Some t ->
  Deps.IsToolAvailable (Runner.Binary t) = true ->
  Runner.BuildCmd t (Detector.Path fileInfo) (effective_opts opts) = Some cmd ->
  fin = run_process idx (Runner.rebuilt cmd) (Runner.Timeout (effective_opts opts)) ->
  Exec.ctx_Err fin <> Some Exec.DeadlineExceeded ->
  Exec.err fin = None ->
  exists sr log r,
    Runner.RunAll s fileInfo opts = Some (sr, log)
    /\ Runner.Results sr !! idx = Some (Some r)
    /\ Output.Skipped r = false
    /\ Output.Error r = None
    /\ Output.Output r = Strings.TrimSpace (Exec.out fin).
Proof.
  intros Ht Havail Hbuild -> Hctx Herr.
  destruct (RunAll_spec s fileInfo opts) as (sr & log & Hrun & _ & _ & _ & Hslots).
  destruct (Hslots idx t Ht) as [Hres _].
  assert (Hargs : Exec.Args cmd <> []).
  { apply (registry_builds_args (effective_opts opts) _ t _ _
             (applicable_in_registry _ _ _ _ Ht) Hbuild). }
  destruct (goroutine_ran _ _ idx t cmd Havail Hbuild Hargs) as (r & Hr & Hskip & Hout).
  exists sr, log, r. split; [exact Hrun|]. split; [by rewrite Hres, Hr|].
  split; [exact Hskip|].
  rewrite Herr in Hout.
  destruct (Exec.ctx_Err _) as [[]|]; [by destruct Hout|done|by destruct Hout].
Qed.

Lemma goroutine_one_outcome (fileInfo : Detector.FileInfo) (opts : Runner.RunOpts)
    (idx : nat) (t : Runner.Tool) (r : Output.Result) :
  (Runner.goroutine fileInfo opts idx t).2 = Some r ->
  one_outcome (Some r).
Proof.
  unfold Runner.goroutine, one_outcome.
  destruct (negb _); simpl.
  { intros [= <-]. eexists. split; [done|]. left. by repeat split. }
  destruct (Runner.BuildCmd _ _ _) as [cmd|]; simpl.
  2: { intros [= <-]. eexists. split; [done|]. left. by repeat split. }
  destruct (Exec.Args cmd); simpl; [discriminate|].
  destruct (run_process _ _ _) as [o e c d]. simpl.
  intros [= <-]. eexists. split; [done|]. right.
  destruct c as [[]|], e; simpl;
    try (destruct (negb _); simpl); try (left; by repeat split); right; by repeat split.
Qed.

(** Every result of [RunAll] is a skip (no error, no output, no duration),
    a failure (an error and no output) or a success (no error): no result
    is both skipped and failed, and no failure carries output. *)
Theorem RunAll_one_outcome_per_result (s : Runner.Scheduler)
    (fileInfo : Detector.FileInfo) (opts : Runner.RunOpts) :
  exists sr log,
    Runner.RunAll s fileInfo opts = Some (sr, log)
    /\ Forall one_outcome (Runner.Results sr).
Proof.
  destruct (RunAll_spec s fileInfo opts) as (sr & log & Hrun & _ & Hlen & _ & Hslots).
  exists sr, log. split; [exact Hrun|].
  apply Forall_lookup. intros idx slot Hslot.
  assert (Hidx : (idx < length (applicable_tools fileInfo opts))%nat).
  { rewrite <- Hlen. by eapply lookup_lt_Some. }
  destruct (lookup_lt_is_Some_2 _ idx Hidx) as [t Ht].
  destruct (Hslots idx t Ht) as [Hres _]. rewrite Hres in Hslot.
  injection Hslot as <-.
  destruct (applicable_stores _ _ _ _ Ht) as (r & Hr & _).
  rewrite Hr. by apply (goroutine_one_outcome fileInfo (effective_opts opts) idx t).
Qed.

(** The scan result does not depend on the order in which the goroutines
    finish. *)
Theorem RunAll_schedule_independent (s1 s2 : Runner.Scheduler)
    (fileInfo : Detector.FileInfo) (opts : Runner.RunOpts) :
  fst <$> Runner.RunAll s1 fileInfo opts = fst <$> Runner.RunAll s2 fileInfo opts.
Proof.
  destruct (RunAll_spec s1 fileInfo opts) as (sr1 & log1 & Hr1 & _).
  destruct (RunAll_spec s2 fileInfo opts) as (sr2 & log2 & Hr2 & _).
  pose proof (RunAll_order_irrelevant s1 s2 fileInfo opts _ _ _ _ Hr1 Hr2) as Hres.
  rewrite Hr1, Hr2. simpl. f_equal.
  rewrite RunAll_unfold in Hr1, Hr2.
  destruct (Runner.run_goroutines _ _ _ (Runner.order s1 _) _); [|discriminate].
  destruct (Runner.run_goroutines _ _ _ (Runner.order s2 _) _); [|discriminate].
  injection Hr1 as <- _. injection Hr2 as <- _. simpl in Hres. by rewrite Hres.
Qed.

End MoreRunner.

(** ** Properties of the report *)
Section Reporting.
Context `{Platform}.

Lemma tally_spec (results : list (option Output.Result)) (t : Report.Tally) :
  match Report.tally results t with
  | Some t' =>
      (None ∉ results)
      /\ Report.total t' = Report.total t
      /\ (Report.success t' + Report.failed t' + Report.skipped t'
          = Report.success t + Report.failed t + Report.skipped t
            + length results)%nat
      /\ (Report.withOutput t' + Report.success t
          <= Report.success t' + Report.withOutput t)%nat
  | None => None ∈ results
  end.
Proof.
  revert t. induction results as [|[r|] results IH]; intros t; simpl.
  - repeat split; [apply not_elem_of_nil | lia | lia].
  - destruct (Output.Skipped r); [|destruct (Output.Error r)];
      match goal with |- context [Report.tally results ?t1] =>
        specialize (IH t1); destruct (Report.tally results t1) as [t'|] end;
      simpl in IH; try (by right);
      destruct IH as (Hnil & Htotal & Hsum & Hout);
      (repeat split; [by apply not_elem_of_cons | done | lia | ]);
      try lia.
    destruct (negb _); lia.
  - left.
Qed.

Lemma PrintSummary_spec
    (results : list (option Output.Result)) (totalDuration : Z) :
  match Report.PrintSummary results totalDuration with
  | Some t =>
      (None ∉ results)
      /\ Report.total t = length results
      /\ (Report.success t + Report.failed t + Report.skipped t = Report.total t)%nat
      /\ (Report.withOutput t <= Report.success t)%nat
  | None => None ∈ results
  end.
Proof.
  unfold Report.PrintSummary.
  match goal with |- context [Report.tally results ?t0] =>
    pose proof (tally_spec results t0) as Hspec;
    destruct (Report.tally results t0) as [t|] end; [|exact Hspec].
  simpl in Hspec. destruct Hspec as (Hnil & Htotal & Hsum & Hout).
  repeat split; [done | done | lia | lia].
Qed.

(** [PrintSummary] panics exactly when a slot is nil; otherwise the total
    is the number of slots, every slot is counted once as successful,
    failed or skipped, and the results with output are among the
    successful ones. *)
Theorem PrintSummary_counts_each_result_once
    (results : list (option Output.Result)) (totalDuration : Z) :
  match Report.PrintSummary results totalDuration with
  | Some t =>
      (None ∉ results)
      /\ Report.total t = length results
      /\ (Report.success t + Report.failed t + Report.skipped t = Report.total t)%nat
      /\ (Report.withOutput t <= Report.success t)%nat
  | None => None ∈ results
  end.
Proof. apply PrintSummary_spec. Qed.

Lemma RunAll_slots (s : Runner.Scheduler) (fileInfo : Detector.FileInfo)
    (opts : Runner.RunOpts) :
  exists sr log,
    Runner.RunAll s fileInfo opts = Some (sr, log)
    /\ length (Runner.Results sr) = length (applicable_tools fileInfo opts)
    /\ forall slot, slot ∈ Runner.Results sr ->
         exists idx t,
           applicable_tools fileInfo opts !! idx = Some t
           /\ slot = (Runner.goroutine fileInfo (effective_opts opts) idx t).2
           /\ populated_by t slot.
Proof.
  destruct (RunAll_spec s fileInfo opts) as (sr & log & Hrun & _ & Hlen & _ & Hslots).
  exists sr, log. split; [exact Hrun|]. split; [exact Hlen|].
  intros slot Hin. apply list_elem_of_lookup in Hin as [idx Hslot].
  assert (Hidx : (idx < length (applicable_tools fileInfo opts))%nat).
  { rewrite <- Hlen. by eapply lookup_lt_Some. }
  destruct (lookup_lt_is_Some_2 _ idx Hidx) as [t Ht].
  destruct (Hslots idx t Ht) as [Hres _]. rewrite Hres in Hslot.
  injection Hslot as <-. exists idx, t. split; [exact Ht|]. split; [done|].
  by apply applicable_stores.
Qed.

(** On the results of [RunAll], [PrintSummary] does not panic: it prints
    as total the number of applicable tools, and successful, failed and
    skipped add up to it. *)
Theorem summary_of_RunAll (s : Runner.Scheduler) (fileInfo : Detector.FileInfo)
    (opts : Runner.RunOpts) :
  exists sr log t,
    Runner.RunAll s fileInfo opts = Some (sr, log)
    /\ Report.PrintSummary (Runner.Results sr) (Runner.Duration sr) = Some t
    /\ Report.total t = length (applicable_tools fileInfo opts)
    /\ (Report.success t + Report.failed t + Report.skipped t
        = length (applicable_tools fileInfo opts))%nat.
Proof.
  destruct (RunAll_slots s fileInfo opts) as (sr & log & Hrun & Hlen & Hslots).
  pose proof (PrintSummary_spec (Runner.Results sr) (Runner.Duration sr)) as Hsum.
  destruct (Report.PrintSummary _ _) as [t|] eqn:Hprint.
  - destruct Hsum as (_ & Htotal & Hparts & _).
    exists sr, log, t. split; [exact Hrun|]. split; [exact Hprint|].
    split; [by rewrite Htotal | by rewrite Hparts, Htotal].
  - destruct (Hslots None Hsum) as (idx & t & _ & _ & r & Hr & _). discriminate.
Qed.

Lemma sections_concat (results : list (option Output.Result)) (cats : list string) :
  concat (Report.sections results cats).*2
  = concat (map (Report.catResults results) cats).
Proof.
  induction cats as [|cat cats IH]; [done|].
  cbn [Report.sections map concat].
  destruct (Report.catResults results cat) as [|r rs] eqn:Hcat.
  - cbn [length Nat.eqb app]. exact IH.
  - cbn [length Nat.eqb]. rewrite fmap_cons. cbn [snd concat]. by rewrite IH.
Qed.

Lemma shown_filter (results : list (option Output.Result)) :
  Some <$> shown results ≡ₚ filter (fun slot => printable slot = true) results.
Proof.
  unfold shown. rewrite sections_concat. unfold Report.categories.
  cbn [map concat]. rewrite !app_nil_r.
  induction results as [|[r|] results IH].
  - done.
  - cbn [Report.catResults].
    assert (Hshown : forall cat, cat ∈ Report.categories ->
              Output.Category r = cat -> printable (Some r) = true).
    { intros cat Hcat <-. unfold printable.
      apply existsb_exists. exists (Output.Category r).
      split; [by apply list_elem_of_In | apply String.eqb_refl]. }
    destruct (String.eqb_spec (Output.Category r) "general") as [Hg|Hg].
    { rewrite filter_cons_True by (apply (Hshown "general"); [set_solver|done]).
      rewrite Hg. simpl String.eqb. cbn iota. cbn [app].
      rewrite fmap_cons. by apply Permutation_skip. }
    destruct (String.eqb_spec (Output.Category r) "image") as [Hi|Hi].
    { rewrite filter_cons_True by (apply (Hshown "image"); [set_solver|done]).
      rewrite Hi. simpl String.eqb. cbn iota. cbn [app].
      rewrite <- !Permutation_middle, fmap_cons. by apply Permutation_skip. }
    destruct (String.eqb_spec (Output.Category r) "audio") as [Ha|Ha].
    { rewrite filter_cons_True by (apply (Hshown "audio"); [set_solver|done]).
      rewrite Ha. simpl String.eqb. cbn iota. cbn [app].
      rewrite <- !Permutation_middle, fmap_cons. by apply Permutation_skip. }
    destruct (String.eqb_spec (Output.Category r) "text") as [Ht|Ht].
    { rewrite filter_cons_True by (apply (Hshown "text"); [set_solver|done]).
      cbn iota. cbn [app].
      rewrite <- !Permutation_middle, fmap_cons. by apply Permutation_skip. }
    cbn iota. rewrite filter_cons_False; [exact IH|].
    unfold printable, Report.categories. cbn [existsb].
    destruct (String.eqb_spec (Output.Category r) "general"); [done|].
    destruct (String.eqb_spec (Output.Category r) "image"); [done|].
    destruct (String.eqb_spec (Output.Category r) "audio"); [done|].
    destruct (String.eqb_spec (Output.Category r) "text"); [done|].
    simpl. congruence.
  - cbn [Report.catResults]. by rewrite filter_cons_False.
Qed.

(** Under the headers of [PrintResults] every result whose category is
    general, image, audio or text stands exactly once; nil slots and
    results of any other category stand under no header. *)
Theorem sections_show_each_result_once (results : list (option Output.Result)) :
  Some <$> shown results ≡ₚ filter (fun slot => printable slot = true) results.
Proof. apply shown_filter. Qed.

(** Every tool of the registry is of category general, image, audio or
    text. *)
Lemma registry_categories (opts : Runner.RunOpts) (t : Runner.Tool) :
  t ∈ Runner.GetAllTools opts ->
  existsb (String.eqb (Runner.Category t)) Report.categories = true.
Proof.
  intros Hin.
  assert (Hall : forallb
            (fun t => existsb (String.eqb (Runner.Category t)) Report.categories)
            (Runner.GetAllTools opts) = true) by reflexivity.
  rewrite forallb_forall in Hall.
  exact (Hall t (proj1 (list_elem_of_In _ _) Hin)).
Qed.

Lemma filter_all {A} (P : A -> Prop) `{forall x, Decision (P x)} (l : list A) :
  (forall x, x ∈ l -> P x) -> filter P l = l.
Proof.
  induction l as [|x l IH]; intros Hall; [done|].
  rewrite filter_cons_True by (apply Hall; left).
  rewrite IH; [done|]. intros y Hy. apply Hall. by right.
Qed.

(** [PrintResults] shows every result of [RunAll] exactly once: the
    results under its headers are a rearrangement of the result
    collection. *)
Theorem PrintResults_shows_every_result (s : Runner.Scheduler)
    (fileInfo : Detector.FileInfo) (opts : Runner.RunOpts) :
  exists sr log,
    Runner.RunAll s fileInfo opts = Some (sr, log)
    /\ Some <$> concat (Report.PrintResults sr).1.*2 ≡ₚ Runner.Results sr.
Proof.
  destruct (RunAll_slots s fileInfo opts) as (sr & log & Hrun & _ & Hslots).
  exists sr, log. split; [exact Hrun|].
  unfold Report.PrintResults. cbn [fst].
  change (concat (Report.sections (Runner.Results sr) Report.categories).*2)
    with (shown (Runner.Results sr)).
  rewrite shown_filter.
  rewrite filter_all; [done|].
  intros slot Hin.
  destruct (Hslots slot Hin) as (idx & t & Ht & _ & r & -> & _ & Hcat).
  simpl. rewrite Hcat. apply registry_categories with (opts := effective_opts opts).
  by apply applicable_in_registry with fileInfo idx.
Qed.

Lemma printLines_take (lines : list string) (i n : nat) :
  (i <= Report.maxLines)%nat ->
  Report.printLines lines i n
  = ((Report.LineOutput <$> take (Report.maxLines - i) lines)
     ++ if (Report.maxLines - i <? length lines)%nat
        then [Report.LineMore (Z.of_nat n - Z.of_nat Report.maxLines)] else [])%list.
Proof.
  revert i. induction lines as [|line lines IH]; intros i Hi.
  - simpl. by rewrite take_nil.
  - cbn [Report.printLines].
    destruct (Nat.leb_spec Report.maxLines i) as [Hge|Hlt].
    + replace (Report.maxLines - i)%nat with 0%nat by lia. reflexivity.
    + rewrite IH by lia.
      replace (Report.maxLines - i)%nat with (S (Report.maxLines - S i)) by lia.
      cbn [take fmap list_fmap app length].
      replace (S (Report.maxLines - S i) <? S (length lines))%nat
        with (Report.maxLines - S i <? length lines)%nat; [done|].
      destruct (Nat.ltb_spec (Report.maxLines - S i) (length lines));
        symmetry; [apply Nat.ltb_lt | apply Nat.ltb_ge]; lia.
Qed.

(** For a success with output, [PrintToolResult] prints the status line,
    then the first 30 lines of the trimmed output, then, only if there are
    more, one line that counts the lines left out. *)
Theorem PrintToolResult_output_capped (result : Output.Result) :
  Output.Skipped result = false ->
  Output.Error result = None ->
  Strings.TrimSpace (Output.Output result) <> EmptyString ->
  let lines := Report.Split_LF (Strings.TrimSpace (Output.Output result)) in
  Report.PrintToolResult result
  = (Report.LineOk (Output.ToolName result) (Output.Duration result)
     :: (Report.LineOutput <$> take 30 lines)
     ++ if (30 <? length lines)%nat
        then [Report.LineMore (Z.of_nat (length lines) - 30)] else [])%list.
Proof.
  intros Hskip Herr Hout lines. unfold Report.PrintToolResult.
  rewrite Hskip, Herr.
  destruct (String.eqb_spec (Strings.TrimSpace (Output.Output result)) EmptyString);
    [done|].
  fold lines. rewrite printLines_take by (unfold Report.maxLines; lia).
  reflexivity.
Qed.

Lemma length_append (a b : string) :
  String.length (a +:+ b) = (String.length a + String.length b)%nat.
Proof. induction a as [|c a IH]; simpl; [done|by rewrite IH]. Qed.

Lemma length_from_byte (n : nat) (s : string) :
  String.length (Report.from_byte n s) = (String.length s - n)%nat.
Proof.
  revert s. induction n as [|n IH]; intros s; simpl; [lia|].
  destruct s; simpl; [done|apply IH].
Qed.

(** [truncate] returns [s] when it fits in [max] bytes; a longer [s] is cut
    to exactly [max] bytes, three dots and its last [max - 3] bytes, when
    [max] is at least 3, and the slice expression panics when [max] is
    less than 3. *)
Theorem truncate_fits (s : string) (max : Z) :
  let len := Z.of_nat (String.length s) in
  match Report.truncate s max with
  | Some r =>
      (len <= max /\ r = s)
      \/ (max < len /\ 3 <= max
          /\ Z.of_nat (String.length r) = max
          /\ r = "..." +:+ Report.from_byte (Z.to_nat (len - (max - 3))) s)
  | None => max < len /\ max < 3
  end.
Proof.
  intros len. unfold Report.truncate. fold len.
  destruct (Z.leb_spec len max) as [Hfit|Hlong]; [by left|].
  destruct (Z.ltb_spec (len - max + 3) 0) as [Hneg|Hpos]; simpl; [lia|].
  destruct (Z.ltb_spec len (len - max + 3)) as [Hout|Hin]; [lia|].
  right. split; [lia|]. split; [lia|].
  replace (len - (max - 3)) with (len - max + 3) by lia. split; [|done].
  rewrite length_append, length_from_byte. simpl String.length. lia.
Qed.

End Reporting.

(** ** Properties of the dependency check *)
Section Dependencies.
Context `{Platform}.

Lemma checkTools_other (tools : list Catalog.ToolDep) (status : gmap string bool)
    (name : string) :
  name ∉ Catalog.Name <$> tools ->
  foldl (fun status tool => <[Catalog.Name tool := Catalog.available tool]> status)
    status tools !! name = status !! name.
Proof.
  revert status. induction tools as [|tool tools IH]; intros status Hnot; [done|].
  simpl. rewrite fmap_cons in Hnot. apply not_elem_of_cons in Hnot as [Hne Hnot].
  rewrite IH by done. by rewrite lookup_insert_ne.
Qed.

(** With distinct names, the status map has for each tool of the list the
    value computed for that tool. *)
Lemma checkTools_lookup (tools : list Catalog.ToolDep) (status : gmap string bool)
    (d : Catalog.ToolDep) :
  NoDup (Catalog.Name <$> tools) ->
  d ∈ tools ->
  foldl (fun status tool => <[Catalog.Name tool := Catalog.available tool]> status)
    status tools !! Catalog.Name d = Some (Catalog.available d).
Proof.
  revert status. induction tools as [|tool tools IH]; intros status Hnd Hin.
  - by apply elem_of_nil in Hin.
  - rewrite fmap_cons in Hnd. apply NoDup_cons in Hnd as [Hfresh Hnd]. simpl.
    apply elem_of_cons in Hin as [->|Hin].
    + rewrite checkTools_other by done. apply lookup_insert_eq.
    + by apply IH.
Qed.

Lemma catalog_names_distinct : NoDup (Catalog.Name <$> Catalog.AllTools).
Proof. refine (bool_decide_unpack _ _). vm_compute. exact I. Qed.

Lemma CheckAll_lookup (d : Catalog.ToolDep) :
  d ∈ Catalog.AllTools ->
  Catalog.CheckAll !! Catalog.Name d = Some (exec_LookPath (Catalog.Binary d)).
Proof.
  intros Hin. unfold Catalog.CheckAll, Catalog.checkTools.
  rewrite (checkTools_lookup _ _ d catalog_names_distinct Hin). f_equal.
  assert (Halt : Catalog.AltBinaries d = []).
  { assert (Hall : forallb
              (fun d => bool_decide (Catalog.AltBinaries d = []))
              Catalog.AllTools = true) by reflexivity.
    rewrite forallb_forall in Hall.
    exact (bool_decide_eq_true_1 _ (Hall d (proj1 (list_elem_of_In _ _) Hin))). }
  unfold Catalog.available, Deps.isCommandAvailable. rewrite Halt.
  by destruct (exec_LookPath _).
Qed.

(** [CheckAll] has exactly one entry for each of the 17 tools of the
    catalogue, and the entry tells whether the binary of the tool is on the
    search path. *)
Theorem CheckAll_reports_search_path (d : Catalog.ToolDep) :
  d ∈ Catalog.AllTools ->
  Catalog.CheckAll !! Catalog.Name d = Some (exec_LookPath (Catalog.Binary d))
  /\ size Catalog.CheckAll = 17%nat
  /\ length Catalog.AllTools = 17%nat.
Proof.
  intros Hin. split; [by apply CheckAll_lookup|]. split; reflexivity.
Qed.

(** The binary of every tool of the registry is the binary of a tool of
    the catalogue. *)
Lemma registry_binaries_in_catalog (opts : Runner.RunOpts) (t : Runner.Tool) :
  t ∈ Runner.GetAllTools opts ->
  exists d, d ∈ Catalog.AllTools /\ Catalog.Binary d = Runner.Binary t.
Proof.
  intros Hin.
  assert (Hall : forallb
            (fun t => existsb
                        (fun d => String.eqb (Catalog.Binary d) (Runner.Binary t))
                        Catalog.AllTools)
            (Runner.GetAllTools opts) = true) by reflexivity.
  rewrite forallb_forall in Hall.
  specialize (Hall t (proj1 (list_elem_of_In _ _) Hin)).
  apply existsb_exists in Hall as (d & Hd & Heq).
  exists d. split; [by apply list_elem_of_In | by apply String.eqb_eq].
Qed.

Lemma goroutine_available (fileInfo : Detector.FileInfo) (opts : Runner.RunOpts)
    (idx : nat) (t : Runner.Tool) :
  Deps.IsToolAvailable (Runner.Binary t) = true ->
  populated_by t (Runner.goroutine fileInfo opts idx t).2 ->
  not_missing (Runner.goroutine fileInfo opts idx t).2.
Proof.
  intros Havail (r & Hr & _). exists r. split; [exact Hr|].
  revert Hr. unfold Runner.goroutine. rewrite Havail. simpl.
  destruct (Runner.BuildCmd _ _ _) as [cmd|]; simpl; [|intros [= <-]; by right].
  destruct (Exec.Args cmd); simpl; [discriminate|].
  destruct (run_process _ _ _) as [o e c d]. simpl.
  intros [= <-]. left.
  destruct c as [[]|], e; simpl; try done; by destruct (negb _).
Qed.

(** When [CheckAll] reports every tool as available, no result of [RunAll]
    is a skip for a missing binary: every binary that the runner probes
    belongs to a tool of the catalogue. *)
Theorem all_ready_nothing_missing (s : Runner.Scheduler)
    (fileInfo : Detector.FileInfo) (opts : Runner.RunOpts) :
  map_Forall (fun _ ready => ready = true) Catalog.CheckAll ->
  exists sr log,
    Runner.RunAll s fileInfo opts = Some (sr, log)
    /\ Forall not_missing (Runner.Results sr).
Proof.
  intros Hready.
  destruct (RunAll_slots s fileInfo opts) as (sr & log & Hrun & _ & Hslots).
  exists sr, log. split; [exact Hrun|].
  apply Forall_forall. intros slot Hin.
  destruct (Hslots slot Hin) as (idx & t & Ht & -> & Hpop).
  apply goroutine_available; [|exact Hpop].
  destruct (registry_binaries_in_catalog (effective_opts opts) t
              (applicable_in_registry _ _ _ _ Ht)) as (d & Hd & Hbin).
  pose proof (CheckAll_lookup d Hd) as Hlook.
  apply (map_Forall_lookup_1 _ _ _ _ Hready) in Hlook.
  unfold Deps.IsToolAvailable, Deps.isCommandAvailable. by rewrite <- Hbin.
Qed.

End Dependencies.

(** ** Properties of the scan command *)

(** Whatever the flags, the scan command either stops at a failed
    detection, before any tool is looked up, or runs [RunAll] on the
    detected file, which returns, with every subprocess under the deadline
    60 s: no value of --timeout, positive or not, changes a deadline. *)
Theorem scan_deadline_is_always_60_seconds `{Platform} (s : Runner.Scheduler)
    (fs : string -> Detector.FsEntry) (f : RootCmd.Flags) (filePath : string) :
  match RootCmd.scanCmd_Run s fs f filePath with
  | inl (Some (sr, log)) =>
      Detector.Detect fs filePath = inl (Runner.FileInfo sr)
      /\ Forall (deadline_is (60 * Runner.Second)) log
  | inl None => False
  | inr e => Detector.Detect fs filePath = inr e
  end.
Proof.
  unfold RootCmd.scanCmd_Run.
  destruct (Detector.Detect fs filePath) as [fileInfo|e]; [|done].
  destruct (RunAll_spec s fileInfo (RootCmd.scanOpts f))
    as (sr & log & Hrun & Hfile & _).
  destruct (RunAll_deadlines s fileInfo (RootCmd.scanOpts f))
    as (sr' & log' & Hrun' & Hdeadline).
  rewrite Hrun in Hrun'. injection Hrun' as <- <-. rewrite Hrun.
  split; [by rewrite Hfile|].
  assert (Hsixty : (if Runner.Timeout (RootCmd.scanOpts f) =? 0
                    then 60 * Runner.Second
                    else Runner.Timeout (RootCmd.scanOpts f)) = 60 * Runner.Second).
  { unfold RootCmd.scanOpts. by destruct (0 <? RootCmd.timeout f). }
  by rewrite Hsixty in Hdeadline.
Qed.

(** ** The further properties on the platforms *)

Lemma unknown_file_runs_nothing_witness :
  Runner.RunAll (H := Sample.platform) Sample.reversed
    (Sample.file_of Detector.CategoryUnknown) (Sample.opts_with ["exiftool"] 0)
  = Some ({| Runner.FileInfo := Sample.file_of Detector.CategoryUnknown;
             Runner.Results := []; Runner.Duration := 60000000000 |}, []).
Proof.
  apply (unknown_file_runs_nothing (H := Sample.platform) Sample.reversed
           (Sample.file_of Detector.CategoryUnknown) (Sample.opts_with ["exiftool"] 0)).
  reflexivity.
Defined.

Lemma nil_command_skipped_witness :
  exists sr log r,
    Runner.RunAll (H := Scenario.all_installed) Sample.in_order
      (Sample.file_of Detector.CategoryJPG) (Sample.opts_with [] 0) = Some (sr, log)
    /\ Runner.Results sr !! 11%nat = Some (Some r)
    /\ Output.ToolName r = "stegseek"
    /\ Output.Skipped r = true
    /\ Output.SkipReason r = "command not applicable"
    /\ events_of 11 log
       = [Runner.EvLookPath "stegseek"; Runner.EvBuildCmd "stegseek" "/tmp/secret"].
Proof.
  destruct (nil_command_skipped (H := Scenario.all_installed)
              Sample.in_order (Sample.file_of Detector.CategoryJPG)
              (Sample.opts_with [] 0) 11 (Scenario.jpg_tool 11))
    as (sr & log & r & Hrun & Hslot & Hskip & Hreason & _ & _ & Hevents).
  - vm_compute. reflexivity.
  - vm_compute. reflexivity.
  - vm_compute. reflexivity.
  - vm_compute in Hevents. exists sr, log, r.
    split; [exact Hrun|]. split; [exact Hslot|]. split; [|by repeat split].
    destruct (RunAll_spec (H := Scenario.all_installed) Sample.in_order
                (Sample.file_of Detector.CategoryJPG) (Sample.opts_with [] 0))
      as (sr' & log' & Hrun' & _ & _ & _ & Hslots).
    rewrite Hrun in Hrun'. injection Hrun' as <- <-.
    destruct (Hslots 11%nat (Scenario.jpg_tool 11)) as [Hres _];
      [vm_compute; reflexivity|].
    rewrite Hslot in Hres. vm_compute in Hres. by injection Hres as ->.
Defined.

Lemma zero_exit_succeeds_witness :
  exists sr log r,
    Runner.RunAll (H := Sample.platform) Sample.reversed
      (Sample.file_of Detector.CategoryPNG) (Sample.opts_with [] 0) = Some (sr, log)
    /\ Runner.Results sr !! 0%nat = Some (Some r)
    /\ Output.Skipped r = false
    /\ Output.Error r = None
    /\ Output.Output r = "image/png; charset=binary".
Proof.
  destruct (zero_exit_succeeds (H := Sample.platform)
              Sample.reversed (Sample.file_of Detector.CategoryPNG)
              (Sample.opts_with [] 0) 0 (Sample.png_tool 0) Scenario.file_cmd
              Scenario.file_finished)
    as (sr & log & r & Hrun & Hslot & Hskip & Herr & Hout).
  - vm_compute. reflexivity.
  - vm_compute. reflexivity.
  - vm_compute. reflexivity.
  - vm_compute. reflexivity.
  - vm_compute. discriminate.
  - vm_compute. reflexivity.
  - vm_compute in Hout. exists sr, log, r. by repeat split.
Defined.

Lemma PrintToolResult_output_capped_witness :
  Report.PrintToolResult (H := Sample.platform) Scenario.two_lines
  = [Report.LineOk "strings" 12000000;
     Report.LineOutput "flag{one}"; Report.LineOutput "flag{two}"].
Proof.
  apply (PrintToolResult_output_capped (H := Sample.platform) Scenario.two_lines).
  - reflexivity.
  - reflexivity.
  - vm_compute. discriminate.
Defined.

Lemma CheckAll_reports_search_path_witness :
  Catalog.CheckAll (H := Sample.platform) !! "GraphicsMagick" = Some false
  /\ size (Catalog.CheckAll (H := Sample.platform)) = 17%nat
  /\ length Catalog.AllTools = 17%nat.
Proof.
  apply (CheckAll_reports_search_path (H := Sample.platform) Scenario.graphicsmagick).
  do 13 right. left.
Defined.

Lemma all_ready_nothing_missing_witness :
  exists sr log,
    Runner.RunAll (H := Scenario.all_installed) Sample.reversed
      (Sample.file_of Detector.CategoryWAV) (Sample.opts_with [] 0) = Some (sr, log)
    /\ Forall not_missing (Runner.Results sr).
Proof.
  apply (all_ready_nothing_missing (H := Scenario.all_installed) Sample.reversed
           (Sample.file_of Detector.CategoryWAV) (Sample.opts_with [] 0)).
  refine (bool_decide_unpack _ _). vm_compute. exact I.
Defined.

(** Sample values of the status map and of [truncate]: binwalk is reported
    missing on the sample platform, a long path keeps its last 13 bytes
    behind three dots, and a width below 3 makes the slice panic. *)
Example status_and_truncate_samples :
  Catalog.CheckAll (H := Sample.platform) !! "binwalk" = Some false
  /\ Report.truncate "/home/user/pictures/secret.png" 16 = Some "...es/secret.png"
  /\ Report.truncate "secret.png" 2 = None.
Proof. repeat split; reflexivity. Qed.

(** ** Properties of the installer *)
Section Installer.
Context `{Platform} `{Install.Machine}.

















Lemma installLoop_all_available (distro : Install.Distro)
    (tools : list Catalog.ToolDep) (st : Install.St) :
  (forall d, d ∈ tools -> Install.isCommandAvailable st (Catalog.Binary d) = true) ->
  Install.installLoop distro tools st
  = ((fun d => (Catalog.Name d, Install.AlreadyInstalled)) <$> tools, st).
Proof.
  induction tools as [|tool tools IH]; intros Hall; [done|].
  cbn [Install.installLoop]. rewrite (Hall tool) by left.
  rewrite IH; [done|]. intros d Hd. apply Hall. by right.
Qed.

(** When the binary of every tool of the catalogue is on the search path,
    [InstallMissing] runs no command for the tools and reports each of
    them as already installed. *)
Theorem InstallMissing_nothing_to_do (w : Install.World) :
  (forall d, d ∈ Catalog.AllTools -> Install.LookPath w (Catalog.Binary d) = true) ->
  Install.InstallMissing w
  = ((fun d => (Catalog.Name d, Install.AlreadyInstalled)) <$> Catalog.AllTools,
     {| Install.world := Install.ensureRockyou w; Install.ran := [] |}).
Proof.
  intros Hall. unfold Install.InstallMissing.
  rewrite installLoop_all_available; [done|]. exact Hall.
Qed.

End Installer.


Lemma InstallMissing_nothing_to_do_witness :
  Install.InstallMissing (H := Sample.platform) (H0 := Scenario.debian)
    Scenario.complete
  = ((fun d => (Catalog.Name d, Install.AlreadyInstalled)) <$> Catalog.AllTools,
     @Install.Build_St Scenario.debian Scenario.complete []).
Proof.
  apply (InstallMissing_nothing_to_do (H := Sample.platform)
           (H0 := Scenario.debian) Scenario.complete).
  intros d Hd. revert d Hd. apply Forall_forall. by repeat constructor.
Defined.

(** ** Properties of detection *)


